(** * Json_to_lut: the conversion of a colour-balance JSON to a .cube LUT

    A shallow embedding of [convert_json_to_lut] (main.py, lines 8-52) and of
    the file name computed by the [download] route (main.py, line 211).

    - A parsed JSON document is a value of [json]: what [json.loads] returns
      (None, bool, int, float, str, list, dict with string keys).
    - Python floats and numpy float64 cells are binary64 numbers: Rocq's
      primitive [float], read through [Prim2SF] where digits are needed.
    - Python [str] is [string]: a text is the sequence of its UTF-8 bytes.
    - The exceptions raised inside the [try] block are values of [exn]; the
      handler turns each of them into a [ValueError]. *)

From Stdlib Require Import ZArith String Ascii List Lia.
From Stdlib Require Import Floats DecimalString.
From stdpp Require Import base list gmap strings.

#[local] Set Warnings "-register-all".
#[local] Open Scope string_scope.

(** ** Python values and exceptions *)

Inductive json :=
| JNull
| JBool (b : bool)
| JInt (n : Z)
| JFloat (x : float)
| JStr (s : string)
| JList (l : list json)
| JDict (m : gmap string json).

Inductive exn :=
| KeyError
| IndexError
| TypeError
| OverflowError
| ZeroDivisionError.

Inductive result (A : Type) :=
| Returned (a : A)
| Raised (e : exn).
Arguments Returned {A} a.
Arguments Raised {A} e.

Definition bind {A B : Type} (m : result A) (k : A -> result B) : result B :=
  match m with
  | Returned a => k a
  | Raised e => Raised e
  end.

Notation "x <- m ;; k" := (bind m (fun x => k))
  (at level 100, m at next level, right associativity).

(** ** Text *)

Definition LF : string := String "010"%char "".
Definition DQUOTE : string := String "034"%char "".

(** A byte [10xxxxxx] continues the code point begun before it. *)
Definition is_continuation (c : ascii) : bool :=
  let n := nat_of_ascii c in (128 <=? n)%nat && (n <? 192)%nat.

Fixpoint take_continuation (s : string) : string :=
  match s with
  | String c s' => if is_continuation c then String c (take_continuation s') else ""
  | "" => ""
  end.

Fixpoint drop_continuation (s : string) : string :=
  match s with
  | String c s' => if is_continuation c then drop_continuation s' else s
  | "" => ""
  end.

(** [s[i]] on a [str]: the code point number [i], when there is one. *)
Fixpoint str_getitem (fuel : nat) (s : string) (i : nat) : option string :=
  match fuel, s with
  | S fuel', String c s' =>
      match i with
      | O => Some (String c (take_continuation s'))
      | S i' => str_getitem fuel' (drop_continuation s') i'
      end
  | _, _ => None
  end.

(** ** Subscripts *)

(** [o[k]] with a string [k]: only a dict accepts it. *)
Definition getitem_key (o : json) (k : string) : result json :=
  match o with
  | JDict m =>
      match m !! k with
      | Some v => Returned v
      | None => Raised KeyError
      end
  | _ => Raised TypeError
  end.

(** [o[i]] with a literal index [i >= 0]. The keys of a parsed JSON object
    are strings, so an integer is never one of them. *)
Definition getitem_index (o : json) (i : nat) : result json :=
  match o with
  | JList l =>
      match l !! i with
      | Some v => Returned v
      | None => Raised IndexError
      end
  | JStr s =>
      match str_getitem (String.length s) s i with
      | Some c => Returned (JStr c)
      | None => Raised IndexError
      end
  | JDict _ => Raised KeyError
  | _ => Raised TypeError
  end.

(** ** Floating point *)

(** An [int] below 2^63 as a float (exact below 2^53). *)
Definition float_of_nat (n : nat) : float :=
  of_uint63 (Uint63.of_Z (Z.of_nat n)).

(** [a / b] on two small non-negative ints: both convert exactly and the
    quotient is rounded once. *)
Definition truediv (a b : nat) : result float :=
  match b with
  | O => Raised ZeroDivisionError
  | _ => Returned (float_of_nat a / float_of_nat b)%float
  end.

(** [float(n)] for an int of any size: rounded to nearest, ties to even;
    [OverflowError] when the rounded value is out of range. *)
Definition float_of_int (n : Z) : result float :=
  match binary_normalize prec emax n 0 false with
  | S754_infinity _ => Raised OverflowError
  | x => Returned (SF2Prim x)
  end.

(** The right operand of [float * v] as a double: a float as it is, an int
    (a bool is one) converted; anything else is not a number. *)
Definition as_double (v : json) : result float :=
  match v with
  | JFloat y => Returned y
  | JInt n => float_of_int n
  | JBool b => Returned (if b then 1 else 0)%float
  | _ => Raised TypeError
  end.

Definition float_mul (x : float) (v : json) : result float :=
  y <- as_double v ;;
  Returned (x * y)%float.

(** ** [format(x, '.6f')] *)

Definition digit_char (d : Z) : ascii := ascii_of_nat (48 + Z.to_nat d).

Definition int_digits (n : Z) : string :=
  NilZero.string_of_uint (N.to_uint (Z.to_N n)).

(** The six decimals of [q mod 10^6], leading zeros kept. *)
Definition frac6 (q : Z) : string :=
  String (digit_char (q / 100000 mod 10))
 (String (digit_char (q / 10000 mod 10))
 (String (digit_char (q / 1000 mod 10))
 (String (digit_char (q / 100 mod 10))
 (String (digit_char (q / 10 mod 10))
 (String (digit_char (q mod 10)) ""))))).

(** [num / den] rounded to the nearest integer, ties to even ([den > 0]). *)
Definition round_half_even (num den : Z) : Z :=
  let q := (num / den)%Z in
  match (2 * (num mod den) ?= den)%Z with
  | Lt => q
  | Gt => (q + 1)%Z
  | Eq => if Z.even q then q else (q + 1)%Z
  end.

(** [m * 2^e * 10^6] rounded to an integer: the value in millionths. *)
Definition millionths (m : positive) (e : Z) : Z :=
  if (0 <=? e)%Z
  then (Z.pos m * 2 ^ e * 1000000)%Z
  else round_half_even (Z.pos m * 1000000) (2 ^ (- e)).

Definition sign_text (s : bool) : string := if s then "-" else "".

Definition format_6f (x : float) : string :=
  match Prim2SF x with
  | S754_nan => "nan"
  | S754_infinity s => sign_text s +:+ "inf"
  | S754_zero s => sign_text s +:+ "0.000000"
  | S754_finite s m e =>
      let q := millionths m e in
      sign_text s +:+ int_digits (q / 1000000) +:+ "." +:+ frac6 q
  end.

(** [format(n)] for a non-negative int. *)
Definition format_nat (n : nat) : string :=
  NilZero.string_of_uint (Nat.to_uint n).

(** ** The look-up table

    [lut] is the numpy array of shape (n, n, n, 3): n^3 cells of three
    doubles in row-major order; a subscript outside the shape raises. *)

Definition rgb : Type := float * float * float.

Definition lut_size : nat := 33.

Definition np_zeros (n : nat) : list rgb :=
  replicate (n * n * n) (0, 0, 0)%float.

Definition cell_index (n r g b : nat) : result nat :=
  if (r <? n)%nat && (g <? n)%nat && (b <? n)%nat
  then Returned ((r * n + g) * n + b)%nat
  else Raised IndexError.

Definition lut_setitem (n : nat) (lut : list rgb) (r g b : nat) (v : rgb)
  : result (list rgb) :=
  i <- cell_index n r g b ;;
  Returned (<[i:=v]> lut).

Definition lut_getitem (n : nat) (lut : list rgb) (r g b : nat) : result rgb :=
  i <- cell_index n r g b ;;
  match lut !! i with
  | Some v => Returned v
  | None => Raised IndexError
  end.

(** ** Loops: [for i in range(n): body], the state threaded through *)

Fixpoint for_range_from {St : Type} (start count : nat)
    (body : nat -> St -> result St) (st : St) : result St :=
  match count with
  | O => Returned st
  | S count' =>
      st' <- body start st ;;
      for_range_from (S start) count' body st'
  end.

Definition for_range {St : Type} (n : nat) (body : nat -> St -> result St)
  : St -> result St :=
  for_range_from 0 n body.

(** ** The generator (main.py, lines 14-37) *)

Definition apply_color_balance (r g b : float) (balance : json) : result rgb :=
  b0 <- getitem_index balance 0 ;;
  r_adj <- float_mul r b0 ;;
  b1 <- getitem_index balance 1 ;;
  g_adj <- float_mul g b1 ;;
  b1' <- getitem_index balance 1 ;;
  b_adj <- float_mul b b1' ;;
  Returned (r_adj, g_adj, b_adj).

(** The body of the innermost loop, lines 29-37. *)
Definition fill_cell (json_data : json) (r g b : nat) (lut : list rgb)
  : result (list rgb) :=
  r_val <- truediv r (lut_size - 1) ;;
  g_val <- truediv g (lut_size - 1) ;;
  b_val <- truediv b (lut_size - 1) ;;
  data <- getitem_key json_data "data" ;;
  s <- getitem_key data "s" ;;
  balance <- getitem_key s "colorBalance" ;;
  adj <- apply_color_balance r_val g_val b_val balance ;;
  lut_setitem lut_size lut r g b adj.

Definition fill_lut (json_data : json) : list rgb -> result (list rgb) :=
  for_range lut_size (fun r =>
    for_range lut_size (fun g =>
      for_range lut_size (fun b =>
        fill_cell json_data r g b))).

(** Lines 23-37: the array is created, then filled. *)
Definition generate (json_data : json) : result (list rgb) :=
  fill_lut json_data (np_zeros lut_size).

(** ** The serializer (main.py, lines 40-48) *)

Definition data_line (v : rgb) : string :=
  let '(r_val, g_val, b_val) := v in
  format_6f r_val +:+ " " +:+ format_6f g_val +:+ " " +:+ format_6f b_val +:+ LF.

(** The body of the innermost loop, lines 47-48; [output] is the text
    written to the buffer so far. *)
Definition write_cell (lut : list rgb) (r g b : nat) (output : string)
  : result string :=
  v <- lut_getitem lut_size lut r g b ;;
  Returned (output +:+ data_line v).

Definition write_rows (lut : list rgb) : string -> result string :=
  for_range lut_size (fun r =>
    for_range lut_size (fun g =>
      for_range lut_size (fun b =>
        write_cell lut r g b))).

(** What a caller of [convert_json_to_lut] sees: the pair it returns, or the
    [ValueError] of line 52, whose message is built from the exception caught. *)
Inductive outcome :=
| Converted (lut_content : string) (filename : json)
| ValueError (cause : exn).

Definition try_except (m : result (string * json)) : outcome :=
  match m with
  | Returned (lut_content, filename) => Converted lut_content filename
  | Raised e => ValueError e
  end.

Section Conversion.

(** [str(v)] for a value that is not a [str] (None, a number, a list, a
    dict): the f-string of line 41 calls it when the name is not text. Its
    result is left open here: no property below depends on it. *)
Variable str_of_value : json -> string.

Definition py_str (v : json) : string :=
  match v with
  | JStr s => s
  | _ => str_of_value v
  end.

Definition title_line (name : json) : string :=
  "TITLE " +:+ DQUOTE +:+ py_str name +:+ DQUOTE +:+ LF.

Definition size_line : string :=
  "LUT_3D_SIZE " +:+ format_nat lut_size +:+ LF.

Definition convert_json_to_lut (json_data : json) : outcome :=
  try_except (
    lut <- generate json_data ;;
    let output := "" in
    name <- getitem_key json_data "name" ;;
    let output := output +:+ title_line name in
    let output := output +:+ size_line in
    output <- write_rows lut output ;;
    name <- getitem_key json_data "name" ;;
    Returned (output, name)).

End Conversion.

(** ** The download name (main.py, line 211) *)

(** [s.replace(old, new)] for one-character [old] and [new]. *)
Fixpoint replace_char (old new : ascii) (s : string) : string :=
  match s with
  | String c s' =>
      String (if Ascii.eqb c old then new else c) (replace_char old new s')
  | "" => ""
  end.

Definition download_name (filename : string) : string :=
  replace_char " " "_" filename +:+ ".cube".

(** ** The conversion with its objects in a heap

    The same statements once more, with the array and the buffer as objects:
    [np.zeros] and [io.StringIO] create an object in the heap and give its
    address, [lut[r, g, b] = ...] and [output.write] change the object at an
    address. A call starts in the heap as the calls before it left it. An
    exception leaves the heap as it is when it is raised. *)

Module Stateful.

Record heap := Heap {
  arrays : list (list rgb);
  buffers : list string
}.

Definition M (A : Type) : Type := heap -> result A * heap.

Definition ret {A : Type} (a : A) : M A := fun h => (Returned a, h).

(** A statement that touches no object. *)
Definition lift {A : Type} (r : result A) : M A := fun h => (r, h).

Definition and_then {A B : Type} (m : M A) (k : A -> M B) : M B :=
  fun h =>
    match m h with
    | (Returned a, h') => k a h'
    | (Raised e, h') => (Raised e, h')
    end.

Notation "x <-- m ;; k" := (and_then m (fun x => k))
  (at level 100, m at next level, right associativity).

(** [np.zeros((n, n, n, 3))]: a new array, after the ones there are. *)
Definition np_zeros (n : nat) : M nat :=
  fun h => (Returned (length (arrays h)),
            Heap (arrays h ++ [np_zeros n]) (buffers h)).

(** [lut[r, g, b] = v]. An address comes from an allocation, so there is
    an object at it; the last case is never met. *)
Definition setitem (lut n r g b : nat) (v : rgb) : M unit :=
  fun h =>
    match cell_index n r g b, arrays h !! lut with
    | Returned i, Some arr =>
        (Returned tt, Heap (<[lut := <[i:=v]> arr]> (arrays h)) (buffers h))
    | Raised e, _ => (Raised e, h)
    | Returned _, None => (Raised TypeError, h)
    end.

(** [lut[r, g, b]]. *)
Definition getitem (lut n r g b : nat) : M rgb :=
  fun h =>
    match arrays h !! lut with
    | Some arr => (lut_getitem n arr r g b, h)
    | None => (Raised TypeError, h)
    end.

(** [io.StringIO()]: a new, empty buffer. *)
Definition StringIO : M nat :=
  fun h => (Returned (length (buffers h)),
            Heap (arrays h) (buffers h ++ [""])).

(** [output.write(s)]. *)
Definition write (output : nat) (s : string) : M unit :=
  fun h =>
    match buffers h !! output with
    | Some t => (Returned tt, Heap (arrays h) (<[output := t +:+ s]> (buffers h)))
    | None => (Raised TypeError, h)
    end.

(** [output.getvalue()]. *)
Definition getvalue (output : nat) : M string :=
  fun h =>
    match buffers h !! output with
    | Some t => (Returned t, h)
    | None => (Raised TypeError, h)
    end.

Fixpoint for_range_from (start count : nat) (body : nat -> M unit) : M unit :=
  match count with
  | O => ret tt
  | S count' =>
      _ <-- body start ;;
      for_range_from (S start) count' body
  end.

Definition for_range (n : nat) (body : nat -> M unit) : M unit :=
  for_range_from 0 n body.

(** Lines 29-37. *)
Definition fill_cell (json_data : json) (lut r g b : nat) : M unit :=
  r_val <-- lift (truediv r (lut_size - 1)) ;;
  g_val <-- lift (truediv g (lut_size - 1)) ;;
  b_val <-- lift (truediv b (lut_size - 1)) ;;
  data <-- lift (getitem_key json_data "data") ;;
  s <-- lift (getitem_key data "s") ;;
  balance <-- lift (getitem_key s "colorBalance") ;;
  adj <-- lift (apply_color_balance r_val g_val b_val balance) ;;
  setitem lut lut_size r g b adj.

(** Lines 26-37. *)
Definition fill_lut (json_data : json) (lut : nat) : M unit :=
  for_range lut_size (fun r =>
    for_range lut_size (fun g =>
      for_range lut_size (fun b =>
        fill_cell json_data lut r g b))).

(** Lines 47-48. *)
Definition write_cell (lut output r g b : nat) : M unit :=
  v <-- getitem lut lut_size r g b ;;
  write output (data_line v).

(** Lines 44-48. *)
Definition write_rows (lut output : nat) : M unit :=
  for_range lut_size (fun r =>
    for_range lut_size (fun g =>
      for_range lut_size (fun b =>
        write_cell lut output r g b))).

Definition try_except (m : M (string * json)) : heap -> outcome * heap :=
  fun h => let (r, h') := m h in (try_except r, h').

(** Lines 10-52. *)
Definition convert_json_to_lut (str_of_value : json -> string)
    (json_data : json) : heap -> outcome * heap :=
  try_except (
    lut <-- np_zeros lut_size ;;
    _ <-- fill_lut json_data lut ;;
    output <-- StringIO ;;
    name <-- lift (getitem_key json_data "name") ;;
    _ <-- write output (title_line str_of_value name) ;;
    _ <-- write output size_line ;;
    _ <-- write_rows lut output ;;
    text <-- getvalue output ;;
    name <-- lift (getitem_key json_data "name") ;;
    ret (text, name)).

(** Two calls one after the other: the second starts in the heap the first
    left. *)
Definition run_twice (str_of_value : json -> string) (json_data : json)
    (h0 : heap) : outcome * outcome * heap :=
  let (first, h1) := convert_json_to_lut str_of_value json_data h0 in
  let (second, h2) := convert_json_to_lut str_of_value json_data h1 in
  (first, second, h2).

End Stateful.

(** The array at address [a]. *)
Definition get_array (a : nat) (h : Stateful.heap) : option (list rgb) :=
  Stateful.arrays h !! a.

Definition put_array (a : nat) (arr : list rgb) (h : Stateful.heap)
  : Stateful.heap :=
  Stateful.Heap (<[a:=arr]> (Stateful.arrays h)) (Stateful.buffers h).

(** The buffer at address [o]. *)
Definition get_buffer (o : nat) (h : Stateful.heap) : option string :=
  Stateful.buffers h !! o.

Definition put_buffer (o : nat) (t : string) (h : Stateful.heap)
  : Stateful.heap :=
  Stateful.Heap (Stateful.arrays h) (<[o:=t]> (Stateful.buffers h)).

(** A view of the heap is one object, read by [get] and replaced by [put],
    with what else a loop relies on, [Inv]. Under a view, [m] does to the
    object in the heap what [f] does to its value. *)
Definition simulates {St : Type} (get : Stateful.heap -> option St)
    (put : St -> Stateful.heap -> Stateful.heap) (Inv : Stateful.heap -> Prop)
    (m : Stateful.M unit) (f : St -> result St) : Prop :=
  forall h s, Inv h -> get h = Some s ->
    match f s with
    | Returned s' => m h = (Returned tt, put s' h)
    | Raised e => fst (m h) = Raised e
    end.

(** ** Reading a text back: fields, lines, decimals *)

(** [s.split(sep)] for a one-character separator. *)
Fixpoint split_on (sep : ascii) (s : string) : list string :=
  match s with
  | "" => [""]
  | String c s' =>
      if Ascii.eqb c sep then "" :: split_on sep s'
      else match split_on sep s' with
           | f :: fs => String c f :: fs
           | [] => [String c ""]
           end
  end.

Fixpoint existsb_char (c : ascii) (s : string) : bool :=
  match s with
  | "" => false
  | String x s' => Ascii.eqb x c || existsb_char c s'
  end.

Fixpoint count_char (c : ascii) (s : string) : nat :=
  match s with
  | "" => 0
  | String x s' => (if Ascii.eqb x c then 1 else 0) + count_char c s'
  end.

(** [sep] does not occur in [s]. *)
Definition avoids (sep : ascii) (s : string) : bool :=
  negb (existsb_char sep s).

(** The number of newline-terminated lines of a text that ends in a newline. *)
Definition line_count (text : string) : nat := count_char "010" text.

Fixpoint all_chars (p : ascii -> bool) (s : string) : bool :=
  match s with
  | "" => true
  | String c s' => p c && all_chars p s'
  end.

Definition is_digit (c : ascii) : bool :=
  let n := nat_of_ascii c in (48 <=? n)%nat && (n <=? 57)%nat.

Definition unsigned (s : string) : string :=
  match s with
  | String c s' => if Ascii.eqb c "-" then s' else s
  | "" => ""
  end.

(** A fixed-point decimal with exactly six digits after the point: an
    optional minus sign, one digit or more, a point, six digits. *)
Definition is_fixed6 (s : string) : bool :=
  match split_on "." (unsigned s) with
  | [ip; fp] =>
      negb (String.eqb ip "") && all_chars is_digit ip
      && (String.length fp =? 6)%nat && all_chars is_digit fp
  | _ => false
  end.

(** The characters [format_6f] writes: digits, sign, point, and the letters
    of [nan] and [inf]. *)
Definition is_number_char (c : ascii) : bool :=
  is_digit c
  || Ascii.eqb c "-" || Ascii.eqb c "."
  || Ascii.eqb c "n" || Ascii.eqb c "a" || Ascii.eqb c "i" || Ascii.eqb c "f".

(** A binary64 number that is neither an infinity nor a NaN. *)
Definition is_finite (x : float) : bool :=
  match Prim2SF x with
  | S754_zero _ | S754_finite _ _ _ => true
  | _ => false
  end.

(** The whitespace of ASCII: space, tab, line feed, vertical tab, form feed,
    carriage return. *)
Definition is_whitespace (c : ascii) : bool :=
  let n := nat_of_ascii c in (n =? 32)%nat || ((9 <=? n)%nat && (n <=? 13)%nat).

(** A title that is empty once trimmed: nothing but whitespace. *)
Definition blank (title : string) : bool := all_chars is_whitespace title.

(** The file name as the specification words it: every whitespace character
    of the title becomes an underscore, then [.cube] is appended. *)
Fixpoint underscore_whitespace (s : string) : string :=
  match s with
  | String c s' =>
      String (if is_whitespace c then "_"%char else c) (underscore_whitespace s')
  | "" => ""
  end.

Definition spec_file_name (title : string) : string :=
  underscore_whitespace title +:+ ".cube".

(** A data line without its newline. *)
Definition data_fields (v : rgb) : string :=
  let '(r_val, g_val, b_val) := v in
  format_6f r_val +:+ " " +:+ format_6f g_val +:+ " " +:+ format_6f b_val.

(** A data line as the specification describes it: three fields, each a
    fixed-point decimal with six digits after the point. *)
Definition well_formed_data_line (l : string) : bool :=
  match split_on " " l with
  | [a; b; c] => is_fixed6 a && is_fixed6 b && is_fixed6 c
  | _ => false
  end.

(** The text an outcome carries: none when the conversion raised. *)
Definition returned_text (o : outcome) : option string :=
  match o with
  | Converted lut_content _ => Some lut_content
  | ValueError _ => None
  end.

(** ** Inputs used in examples *)

(** The document [{"name": name, "data": {"s": {"colorBalance": balance}}}]. *)
Definition make_input (name : json) (balance : list json) : json :=
  JDict (<["name" := name]>
        (<["data" := JDict {["s" := JDict {["colorBalance" := JList balance]}]}]> ∅)).

(** The scenario of the specification:
    [{"name": "Test", "data": {"s": {"colorBalance": [1.0, 0.5, 0.5]}}}]. *)
Definition test_input : json :=
  make_input (JStr "Test") [JFloat 1; JFloat 0.5; JFloat 0.5].

(** In the closed examples below the name is a text, so that [str] of other
    values is never called ([convert_text_name_any_str]); they pass this
    function for it. *)
Definition str_not_called (v : json) : string := "".

(** [{"name": "a\nb", ...}]: a title with a newline in it. *)
Definition newline_title_input : json :=
  make_input (JStr ("a" +:+ LF +:+ "b")) [JFloat 1; JFloat 0.5].

(** A title with a double quote and a newline in it: a, quote, b, newline, c. *)
Definition quote_newline_input : json :=
  make_input (JStr ("a" +:+ DQUOTE +:+ "b" +:+ LF +:+ "c")) [JFloat 1; JFloat 0.5].

(** [{"name": "", ...}]: an empty title. *)
Definition empty_title_input : json :=
  make_input (JStr "") [JFloat 1; JFloat 0.5].

(** [{"name": "Test", "data": {"s": {"colorBalance": [1e999, 1]}}}]: the
    first factor is read as an infinity. *)
Definition infinite_balance_input : json :=
  make_input (JStr "Test") [JFloat infinity; JInt 1].

(** The scenario with two factors only. *)
Definition two_factor_input : json :=
  make_input (JStr "Test") [JFloat 1; JFloat 0.5].

(** The scenario with a fourth factor and two more fields. *)
Definition extra_fields_input : json :=
  JDict (<["name" := JStr "Test"]>
        (<["author" := JStr "someone"]>
        (<["data" := JDict (<["s" := JDict (<["colorBalance" :=
                       JList [JFloat 1; JFloat 0.5; JFloat 0.25; JStr "x"]]>
                                          {["exposure" := JInt 3]})]>
                            {["t" := JNull]})]> ∅))).

(** [{"name": "Test"}]: no [data] at all. *)
Definition no_data_input : gmap string json := {["name" := JStr "Test"]}.

(** A text of channel [x] in a data line: its format, which has six
    decimals when [x] is finite and is a word otherwise. *)
Definition channel_text (x : float) (s : string) : Prop :=
  s = format_6f x /\
  if is_finite x then is_fixed6 s = true
  else s = "nan" \/ s = "inf" \/ s = "-inf".

(** A document generated at resolution [n]: its second line declares [n]
    and it has [2 + n^3] lines. *)
Definition generated_at (n : nat) (text : string) : Prop :=
  split_on "010" text !! 1 = Some ("LUT_3D_SIZE " +:+ format_nat n) /\
  line_count text = 2 + n * n * n.

(** [a<TAB>b]: a title with a tab in it. *)
Definition tab_title : string := "a" +:+ String "009" "b".

(** The characters of the data lines: those of a number, the space between
    fields and the newline. *)
Definition is_data_char (c : ascii) : bool :=
  is_number_char c || Ascii.eqb c " " || Ascii.eqb c "010".

(** The text of [0.0 * x]: a zero with the sign of [x] when [x] is finite,
    [nan] when [x] is an infinity or a NaN. *)
Definition zero_product_text (x : float) : string :=
  match Prim2SF x with
  | S754_zero s | S754_finite s _ _ => sign_text s +:+ "0.000000"
  | S754_infinity _ | S754_nan => "nan"
  end.

(** * Properties *)

(** ** What the conversion computes, written without loops *)

Definition color_balance (json_data : json) : result json :=
  data <- getitem_key json_data "data" ;;
  s <- getitem_key data "s" ;;
  getitem_key s "colorBalance".

(** The two factors the generator reads, in the order it reads them. *)
Definition balance_factors (json_data : json) : result (float * float) :=
  balance <- color_balance json_data ;;
  b0 <- getitem_index balance 0 ;;
  br <- as_double b0 ;;
  b1 <- getitem_index balance 1 ;;
  bg <- as_double b1 ;;
  Returned (br, bg).

(** Sample [i] of an axis: [i / (lut_size - 1)]. *)
Definition coord (i : nat) : float :=
  (float_of_nat i / float_of_nat (lut_size - 1))%float.

Definition cell (br bg : float) (r g b : nat) : rgb :=
  (coord r * br, coord g * bg, coord b * bg)%float.

(** The cell stored at flat position [i]. *)
Definition cell_at (br bg : float) (i : nat) : rgb :=
  cell br bg (i / lut_size / lut_size) (i / lut_size mod lut_size) (i mod lut_size).

Definition grid (br bg : float) : list rgb :=
  cell_at br bg <$> seq 0 (lut_size * lut_size * lut_size).

Fixpoint concat_text (l : list string) : string :=
  match l with
  | [] => ""
  | s :: l' => s +:+ concat_text l'
  end.

Definition document (title : string) (br bg : float) : string :=
  ("TITLE " +:+ DQUOTE +:+ title +:+ DQUOTE +:+ LF)
  +:+ ("LUT_3D_SIZE 33" +:+ LF)
  +:+ concat_text (data_line <$> grid br bg).

(** ** Text lemmas *)

Lemma append_cons (x : ascii) (a b : string) :
  String x a +:+ b = String x (a +:+ b).
Proof. reflexivity. Qed.

Lemma append_empty_l (a : string) : "" +:+ a = a.
Proof. reflexivity. Qed.

Lemma append_assoc (a b c : string) : (a +:+ b) +:+ c = a +:+ b +:+ c.
Proof.
  induction a as [|x a IH]; [reflexivity |].
  rewrite !append_cons. f_equal. exact IH.
Qed.

Lemma append_empty_r (a : string) : a +:+ "" = a.
Proof.
  induction a as [|x a IH]; [reflexivity |].
  rewrite append_cons. f_equal. exact IH.
Qed.

Lemma concat_text_app (l1 l2 : list string) :
  concat_text (l1 ++ l2) = concat_text l1 +:+ concat_text l2.
Proof.
  induction l1 as [|s l1 IH]; cbn [concat_text app]; [reflexivity |].
  now rewrite IH, append_assoc.
Qed.

(** ** Loop lemmas *)

Lemma for_range_from_ext {St : Type} (f g : nat -> St -> result St) count :
  forall start st,
    (forall i s, start <= i < start + count -> f i s = g i s) ->
    for_range_from start count f st = for_range_from start count g st.
Proof.
  induction count as [|count IH]; intros start st Hfg; simpl; [reflexivity |].
  rewrite Hfg by lia.
  destruct (g start st) as [st'|e]; simpl; [| reflexivity].
  apply IH. intros i s Hi. apply Hfg. lia.
Qed.

Lemma for_range_from_app {St : Type} (f : nat -> St -> result St) c1 c2 :
  forall start st,
    for_range_from start (c1 + c2) f st =
    (st' <- for_range_from start c1 f st ;; for_range_from (start + c1) c2 f st').
Proof.
  induction c1 as [|c1 IH]; intros start st; simpl.
  - now rewrite Nat.add_0_r.
  - destruct (f start st) as [st'|e]; simpl; [| reflexivity].
    rewrite IH. now replace (S start + c1) with (start + S c1) by lia.
Qed.

Lemma for_range_from_shift {St : Type} (f : nat -> St -> result St) d count :
  forall start st,
    for_range_from (start + d) count f st =
    for_range_from start count (fun i => f (i + d)) st.
Proof.
  induction count as [|count IH]; intros start st; simpl; [reflexivity |].
  destruct (f (start + d) st) as [st'|e]; simpl; [| reflexivity].
  apply (IH (S start)).
Qed.

(** Two nested loops are one loop over the flat index. *)
Lemma for_range_nest {St : Type} (f : nat -> nat -> St -> result St) n m st :
  for_range n (fun i => for_range m (f i)) st =
  for_range (n * m) (fun k => f (k / m) (k mod m)) st.
Proof.
  unfold for_range.
  assert (H : forall a s,
    for_range_from a n (fun i => for_range_from 0 m (f i)) s =
    for_range_from (a * m) (n * m) (fun k => f (k / m) (k mod m)) s).
  { induction n as [|n IH]; intros a s; simpl; [reflexivity |].
    rewrite for_range_from_app.
    replace (for_range_from (a * m) m (fun k => f (k / m) (k mod m)) s)
      with (for_range_from 0 m (f a) s).
    - destruct (for_range_from 0 m (f a) s) as [s'|e]; simpl; [| reflexivity].
      rewrite IH. f_equal. lia.
    - change (a * m) with (0 + a * m). rewrite for_range_from_shift.
      apply for_range_from_ext. intros i s0 Hi.
      assert (Hm : m <> 0) by lia.
      rewrite Nat.div_add, Nat.Div0.mod_add by assumption.
      rewrite Nat.div_small, Nat.mod_small by lia.
      reflexivity. }
  apply (H 0).
Qed.

(** A loop whose body never raises is a fold. *)
Lemma for_range_from_pure {St : Type} (f : nat -> St -> result St)
    (g : St -> nat -> St) count :
  forall start st,
    (forall i s, start <= i < start + count -> f i s = Returned (g s i)) ->
    for_range_from start count f st = Returned (fold_left g (seq start count) st).
Proof.
  induction count as [|count IH]; intros start st Hf; simpl; [reflexivity |].
  rewrite Hf by lia. simpl. apply IH. intros i s Hi. apply Hf. lia.
Qed.

(** A loop whose body always raises, raises at its first turn. *)
Lemma for_range_from_raise {St : Type} (f : nat -> St -> result St) e count :
  forall start st,
    0 < count ->
    (forall s, f start s = Raised e) ->
    for_range_from start count f st = Raised e.
Proof.
  intros start st Hc Hf. destruct count as [|count]; [lia |].
  simpl. now rewrite Hf.
Qed.

(** ** Flat positions *)

Lemma flat_decode (n i : nat) :
  i < n * n * n ->
  i / n / n < n /\ i / n mod n < n /\ i mod n < n /\
  (i / n / n * n + i / n mod n) * n + i mod n = i.
Proof.
  intros Hi.
  assert (Hn : n <> 0) by (intros ->; simpl in Hi; lia).
  repeat split.
  - apply Nat.Div0.div_lt_upper_bound, Nat.Div0.div_lt_upper_bound. lia.
  - now apply Nat.mod_upper_bound.
  - now apply Nat.mod_upper_bound.
  - pose proof (Nat.div_mod_eq (i / n) n). pose proof (Nat.div_mod_eq i n). lia.
Qed.

Lemma flat_encode (n r g b : nat) :
  r < n -> g < n -> b < n ->
  let i := (r * n + g) * n + b in
  i < n * n * n /\ i / n / n = r /\ i / n mod n = g /\ i mod n = b.
Proof.
  intros Hr Hg Hb i. subst i.
  assert (Hn : n <> 0) by lia.
  assert (H1 : ((r * n + g) * n + b) / n = r * n + g).
  { rewrite Nat.add_comm, Nat.div_add by assumption.
    now rewrite Nat.div_small by assumption. }
  assert (H2 : (r * n + g) / n = r).
  { rewrite Nat.add_comm, Nat.div_add by assumption.
    now rewrite Nat.div_small by assumption. }
  repeat split.
  - nia.
  - now rewrite H1, H2.
  - rewrite H1, Nat.add_comm, Nat.Div0.mod_add. now apply Nat.mod_small.
  - rewrite Nat.add_comm, Nat.Div0.mod_add. now apply Nat.mod_small.
Qed.

Lemma cell_index_flat (n i : nat) :
  i < n * n * n ->
  cell_index n (i / n / n) (i / n mod n) (i mod n) = Returned i.
Proof.
  intros Hi. destruct (flat_decode n i Hi) as (Hr & Hg & Hb & Heq).
  unfold cell_index.
  apply Nat.ltb_lt in Hr, Hg, Hb. rewrite Hr, Hg, Hb. simpl.
  now rewrite Heq.
Qed.

(** The three loops of lines 26-28 and 44-46 as one loop over the flat index. *)
Lemma for_range_cube {St : Type} (f : nat -> nat -> nat -> St -> result St) n st :
  for_range n (fun r => for_range n (fun g => for_range n (fun b => f r g b))) st =
  for_range (n * n * n) (fun i => f (i / n / n) (i / n mod n) (i mod n)) st.
Proof.
  rewrite (for_range_nest (fun r g => for_range n (fun b => f r g b))).
  now rewrite (for_range_nest (fun k b => f (k / n) (k mod n) b)).
Qed.

(** ** The generator *)

Lemma truediv_coord (i : nat) : truediv i (lut_size - 1) = Returned (coord i).
Proof. reflexivity. Qed.

Lemma fill_cell_eq (json_data : json) (r g b : nat) (lut : list rgb) :
  fill_cell json_data r g b lut =
  (f <- balance_factors json_data ;;
   lut_setitem lut_size lut r g b (cell (fst f) (snd f) r g b)).
Proof.
  unfold fill_cell, balance_factors, color_balance, apply_color_balance, float_mul.
  rewrite !truediv_coord. cbn [bind].
  destruct (getitem_key json_data "data") as [data|]; cbn [bind]; [| reflexivity].
  destruct (getitem_key data "s") as [s|]; cbn [bind]; [| reflexivity].
  destruct (getitem_key s "colorBalance") as [balance|]; cbn [bind]; [| reflexivity].
  destruct (getitem_index balance 0) as [b0|]; cbn [bind]; [| reflexivity].
  destruct (as_double b0) as [br|]; cbn [bind]; [| reflexivity].
  destruct (getitem_index balance 1) as [b1|]; cbn [bind]; [| reflexivity].
  destruct (as_double b1) as [bg|]; cbn [bind]; reflexivity.
Qed.

Lemma fold_insert_lookup {A : Type} (c : nat -> A) (k : nat) :
  forall l0 : list A,
    k <= length l0 ->
    let l := fold_left (fun l i => <[i:=c i]> l) (seq 0 k) l0 in
    length l = length l0 /\
    forall j, l !! j = if decide (j < k) then Some (c j) else l0 !! j.
Proof.
  induction k as [|k IH]; intros l0 Hk; cbn zeta.
  - split; [reflexivity |]. intros j. destruct (decide (j < 0)); [lia | reflexivity].
  - rewrite seq_S, fold_left_app. cbn [fold_left].
    destruct (IH l0) as [Hlen Hlook]; [lia |]. cbn zeta in Hlen, Hlook.
    split; [now rewrite length_insert |].
    intros j. destruct (decide (j = k)) as [-> | Hne].
    + rewrite list_lookup_insert_eq by lia.
      destruct (decide (k < S k)); [reflexivity | lia].
    + rewrite list_lookup_insert_ne by lia. rewrite Hlook.
      destruct (decide (j < k)), (decide (j < S k)); try lia; reflexivity.
Qed.

Lemma fold_insert_all {A : Type} (c : nat -> A) (l0 : list A) :
  fold_left (fun l i => <[i:=c i]> l) (seq 0 (length l0)) l0 =
  c <$> seq 0 (length l0).
Proof.
  destruct (fold_insert_lookup c (length l0) l0) as [Hlen Hlook]; [lia |].
  cbn zeta in Hlen, Hlook.
  apply list_eq. intros j. rewrite Hlook, list_lookup_fmap.
  destruct (decide (j < length l0)) as [Hj | Hj].
  - now rewrite lookup_seq_lt.
  - rewrite (lookup_ge_None_2 l0) by lia.
    now rewrite (lookup_ge_None_2 (seq 0 (length l0))) by (rewrite length_seq; lia).
Qed.

Lemma lut_size_pos : 0 < lut_size * lut_size * lut_size.
Proof. unfold lut_size. lia. Qed.

(** The array after the loops, whatever it held before them. *)
Lemma fill_lut_eq (json_data : json) (lut : list rgb) :
  length lut = lut_size * lut_size * lut_size ->
  fill_lut json_data lut =
  (f <- balance_factors json_data ;; Returned (grid (fst f) (snd f))).
Proof.
  intros Hlen. unfold fill_lut. rewrite for_range_cube. unfold for_range.
  destruct (balance_factors json_data) as [[br bg]|e] eqn:Hf; cbn [bind fst snd].
  - rewrite (for_range_from_pure _ (fun l i => <[i:=cell_at br bg i]> l)).
    + rewrite <- Hlen, fold_insert_all. unfold grid. now rewrite Hlen.
    + intros i s Hi. rewrite fill_cell_eq, Hf. cbn [bind fst snd].
      unfold lut_setitem. rewrite cell_index_flat by lia. reflexivity.
  - apply for_range_from_raise; [apply lut_size_pos |].
    intros s. now rewrite fill_cell_eq, Hf.
Qed.

Lemma np_zeros_length (n : nat) : length (np_zeros n) = n * n * n.
Proof. unfold np_zeros. apply length_replicate. Qed.

Lemma generate_eq (json_data : json) :
  generate json_data =
  (f <- balance_factors json_data ;; Returned (grid (fst f) (snd f))).
Proof. apply fill_lut_eq, np_zeros_length. Qed.

Lemma grid_length (br bg : float) :
  length (grid br bg) = lut_size * lut_size * lut_size.
Proof. unfold grid. now rewrite length_fmap, length_seq. Qed.

Lemma grid_lookup (br bg : float) (i : nat) :
  i < lut_size * lut_size * lut_size ->
  grid br bg !! i = Some (cell_at br bg i).
Proof.
  intros Hi. unfold grid. rewrite list_lookup_fmap, lookup_seq_lt by assumption.
  reflexivity.
Qed.

Lemma grid_getitem (br bg : float) (r g b : nat) :
  r < lut_size -> g < lut_size -> b < lut_size ->
  lut_getitem lut_size (grid br bg) r g b = Returned (cell br bg r g b).
Proof.
  intros Hr Hg Hb.
  destruct (flat_encode lut_size r g b Hr Hg Hb) as (Hi & Er & Eg & Eb).
  unfold lut_getitem, cell_index.
  pose proof Hr as Hr'. pose proof Hg as Hg'. pose proof Hb as Hb'.
  apply Nat.ltb_lt in Hr', Hg', Hb'. rewrite Hr', Hg', Hb'. cbn [andb bind].
  rewrite grid_lookup by assumption. unfold cell_at.
  now rewrite Er, Eg, Eb.
Qed.

(** ** The serializer *)

Lemma fold_write (line : nat -> string) (count : nat) :
  forall start output,
    fold_left (fun out i => out +:+ line i) (seq start count) output =
    output +:+ concat_text (line <$> seq start count).
Proof.
  induction count as [|count IH]; intros start output.
  - cbn. now rewrite append_empty_r.
  - cbn [seq fold_left fmap list_fmap concat_text].
    rewrite IH. apply append_assoc.
Qed.

Lemma write_rows_eq (br bg : float) (output : string) :
  write_rows (grid br bg) output =
  Returned (output +:+ concat_text (data_line <$> grid br bg)).
Proof.
  unfold write_rows. rewrite for_range_cube. unfold for_range.
  rewrite (for_range_from_pure _
             (fun out i => out +:+ data_line (cell_at br bg i))).
  - rewrite (fold_write (fun i => data_line (cell_at br bg i))).
    unfold grid. now rewrite <- list_fmap_compose.
  - intros i s Hi. unfold write_cell, lut_getitem.
    rewrite cell_index_flat by lia. cbn [bind].
    rewrite grid_lookup by lia. reflexivity.
Qed.

(** ** The conversion, in closed form *)

Section ConversionFacts.

Variable str_of_value : json -> string.

Lemma size_line_eq : size_line = "LUT_3D_SIZE 33" +:+ LF.
Proof. reflexivity. Qed.

Theorem convert_json_to_lut_eq (json_data : json) :
  convert_json_to_lut str_of_value json_data =
  match balance_factors json_data with
  | Raised e => ValueError e
  | Returned (br, bg) =>
      match getitem_key json_data "name" with
      | Raised e => ValueError e
      | Returned name =>
          Converted (document (py_str str_of_value name) br bg) name
      end
  end.
Proof.
  unfold convert_json_to_lut. rewrite generate_eq.
  destruct (balance_factors json_data) as [[br bg]|e]; cbn [bind fst snd];
    [| reflexivity].
  destruct (getitem_key json_data "name") as [name|e]; cbn [bind];
    [| reflexivity].
  rewrite write_rows_eq. cbn [bind try_except].
  rewrite append_empty_l, append_assoc, size_line_eq.
  reflexivity.
Qed.

End ConversionFacts.

(** ** Fields and lines of a text *)

Lemma all_chars_app (p : ascii -> bool) (a b : string) :
  all_chars p (a +:+ b) = all_chars p a && all_chars p b.
Proof.
  induction a as [|x a IH]; [reflexivity |].
  rewrite append_cons. cbn [all_chars]. rewrite IH. apply andb_assoc.
Qed.

Lemma all_chars_impl (p q : ascii -> bool) (s : string) :
  (forall c, p c = true -> q c = true) ->
  all_chars p s = true -> all_chars q s = true.
Proof.
  intros Hpq. induction s as [|x s IH]; [reflexivity |].
  cbn [all_chars]. rewrite !andb_true_iff. intros [Hx Hs]. auto.
Qed.

Lemma existsb_char_app (c : ascii) (a b : string) :
  existsb_char c (a +:+ b) = existsb_char c a || existsb_char c b.
Proof.
  induction a as [|x a IH]; [reflexivity |].
  rewrite append_cons. cbn [existsb_char]. rewrite IH. apply orb_assoc.
Qed.

Lemma avoids_app (c : ascii) (a b : string) :
  avoids c (a +:+ b) = avoids c a && avoids c b.
Proof. unfold avoids. rewrite existsb_char_app. apply negb_orb. Qed.

Lemma avoids_cons (c x : ascii) (s : string) :
  avoids c (String x s) = negb (Ascii.eqb x c) && avoids c s.
Proof. unfold avoids. cbn [existsb_char]. apply negb_orb. Qed.

(** A text made of characters other than [c] avoids [c]. *)
Lemma all_chars_avoids (p : ascii -> bool) (c : ascii) (s : string) :
  p c = false -> all_chars p s = true -> avoids c s = true.
Proof.
  intros Hc. induction s as [|x s IH]; [reflexivity |].
  cbn [all_chars]. rewrite avoids_cons, !andb_true_iff. intros [Hx Hs].
  split; [| auto].
  destruct (Ascii.eqb_spec x c) as [-> | _]; [congruence | reflexivity].
Qed.

Lemma count_char_app (c : ascii) (a b : string) :
  count_char c (a +:+ b) = count_char c a + count_char c b.
Proof.
  induction a as [|x a IH]; [reflexivity |].
  rewrite append_cons. cbn [count_char]. rewrite IH. lia.
Qed.

Lemma count_char_avoids (c : ascii) (s : string) :
  avoids c s = true -> count_char c s = 0.
Proof.
  induction s as [|x s IH]; [reflexivity |].
  rewrite avoids_cons, andb_true_iff. intros [Hx Hs].
  cbn [count_char]. rewrite IH by assumption.
  now destruct (Ascii.eqb x c).
Qed.

Lemma count_char_exists (c : ascii) (s : string) :
  existsb_char c s = true -> 0 < count_char c s.
Proof.
  induction s as [|x s IH]; [discriminate |].
  cbn [existsb_char count_char]. destruct (Ascii.eqb x c); cbn; [lia | auto].
Qed.

Lemma split_on_nonempty (sep : ascii) (s : string) : split_on sep s <> [].
Proof.
  induction s as [|x s IH]; [discriminate |].
  cbn [split_on]. destruct (Ascii.eqb x sep); [discriminate |].
  destruct (split_on sep s); discriminate.
Qed.

(** Up to its first separator a text is one field. *)
Lemma split_on_app (sep : ascii) (a b : string) :
  avoids sep a = true ->
  split_on sep (a +:+ String sep b) = a :: split_on sep b.
Proof.
  induction a as [|x a IH]; intros Ha.
  - rewrite append_empty_l. cbn [split_on]. now rewrite Ascii.eqb_refl.
  - rewrite avoids_cons, andb_true_iff in Ha. destruct Ha as [Hx Ha].
    rewrite append_cons. cbn [split_on].
    apply negb_true_iff in Hx. rewrite Hx, IH by assumption. reflexivity.
Qed.

Lemma split_on_avoids (sep : ascii) (a : string) :
  avoids sep a = true -> split_on sep a = [a].
Proof.
  induction a as [|x a IH]; intros Ha; [reflexivity |].
  rewrite avoids_cons, andb_true_iff in Ha. destruct Ha as [Hx Ha].
  cbn [split_on]. apply negb_true_iff in Hx. rewrite Hx, IH by assumption.
  reflexivity.
Qed.

Lemma split_on_length (sep : ascii) (s : string) :
  length (split_on sep s) = S (count_char sep s).
Proof.
  induction s as [|x s IH]; [reflexivity |].
  cbn [split_on count_char]. destruct (Ascii.eqb x sep).
  - cbn [length]. now rewrite IH.
  - destruct (split_on sep s) as [|f fs] eqn:E; [now apply split_on_nonempty in E |].
    cbn [length] in *. lia.
Qed.

(** The lines of a concatenation of newline-terminated lines. *)
Lemma split_on_lines (sep : ascii) (ls : list string) :
  Forall (fun l => avoids sep l = true) ls ->
  split_on sep (concat_text ((fun l => l +:+ String sep "") <$> ls)) = (ls ++ [""])%list.
Proof.
  induction 1 as [|l ls Hl _ IH]; [reflexivity |].
  cbn [fmap list_fmap concat_text]. rewrite append_assoc, append_cons, append_empty_l.
  rewrite split_on_app by assumption. now rewrite IH.
Qed.

(** ** The shape of a formatted number *)

Lemma digit_char_is_digit (d : Z) :
  (0 <= d < 10)%Z -> is_digit (digit_char d) = true.
Proof.
  intros Hd.
  assert (H : (d = 0 \/ d = 1 \/ d = 2 \/ d = 3 \/ d = 4 \/ d = 5 \/ d = 6
              \/ d = 7 \/ d = 8 \/ d = 9)%Z) by lia.
  repeat (destruct H as [-> | H]; [reflexivity |]). now subst.
Qed.

Lemma string_of_uint_digits (d : Decimal.uint) :
  all_chars is_digit (NilEmpty.string_of_uint d) = true.
Proof. induction d; cbn [NilEmpty.string_of_uint all_chars]; auto. Qed.

Lemma int_digits_digits (n : Z) : all_chars is_digit (int_digits n) = true.
Proof.
  unfold int_digits, NilZero.string_of_uint.
  destruct (N.to_uint (Z.to_N n)); try reflexivity;
    apply (string_of_uint_digits (_ _)).
Qed.

Lemma int_digits_nonempty (n : Z) : int_digits n <> "".
Proof.
  unfold int_digits, NilZero.string_of_uint.
  destruct (N.to_uint (Z.to_N n)); discriminate.
Qed.

Lemma frac6_digits (q : Z) : all_chars is_digit (frac6 q) = true.
Proof.
  unfold frac6. cbn [all_chars].
  rewrite !digit_char_is_digit by (apply Z.mod_pos_bound; lia). reflexivity.
Qed.

Lemma frac6_length (q : Z) : String.length (frac6 q) = 6.
Proof. reflexivity. Qed.

Lemma is_digit_number_char (c : ascii) :
  is_digit c = true -> is_number_char c = true.
Proof. intros H. unfold is_number_char. now rewrite H. Qed.

Lemma sign_text_chars (s : bool) : all_chars is_number_char (sign_text s) = true.
Proof. now destruct s. Qed.

(** Whatever the number, its text is made of number characters only. *)
Lemma format_6f_chars (x : float) : all_chars is_number_char (format_6f x) = true.
Proof.
  unfold format_6f. destruct (Prim2SF x) as [s | s | | s m e].
  - now destruct s.
  - now destruct s.
  - reflexivity.
  - cbn zeta. rewrite !all_chars_app, sign_text_chars.
    rewrite (all_chars_impl _ _ _ is_digit_number_char (int_digits_digits _)).
    rewrite (all_chars_impl _ _ _ is_digit_number_char (frac6_digits _)).
    reflexivity.
Qed.

Lemma format_6f_avoids (c : ascii) (x : float) :
  is_number_char c = false -> avoids c (format_6f x) = true.
Proof. intros Hc. exact (all_chars_avoids _ _ _ Hc (format_6f_chars x)). Qed.

Lemma is_fixed6_intro (s : bool) (ip fp : string) :
  ip <> "" ->
  all_chars is_digit ip = true ->
  all_chars is_digit fp = true ->
  String.length fp = 6 ->
  is_fixed6 (sign_text s +:+ ip +:+ "." +:+ fp) = true.
Proof.
  intros Hne Hip Hfp Hlen.
  assert (Hu : unsigned (sign_text s +:+ ip +:+ "." +:+ fp) = ip +:+ String "." fp).
  { destruct s; [reflexivity |].
    destruct ip as [|c ip]; [congruence |].
    cbn [sign_text]. rewrite append_empty_l, append_cons. cbn [unsigned].
    cbn [all_chars] in Hip. apply andb_true_iff in Hip as [Hc _].
    destruct (Ascii.eqb_spec c "-") as [-> | _]; [discriminate | reflexivity]. }
  unfold is_fixed6. rewrite Hu.
  rewrite split_on_app by (now apply (all_chars_avoids is_digit)).
  rewrite split_on_avoids by (now apply (all_chars_avoids is_digit)).
  rewrite Hip, Hfp, Hlen.
  destruct ip; [congruence | reflexivity].
Qed.

(** A finite number is written with exactly six decimals. *)
Lemma format_6f_fixed6 (x : float) :
  is_finite x = true -> is_fixed6 (format_6f x) = true.
Proof.
  unfold is_finite, format_6f. destruct (Prim2SF x) as [s | s | | s m e];
    try discriminate; intros _.
  - now destruct s.
  - cbn zeta. apply is_fixed6_intro.
    + apply int_digits_nonempty.
    + apply int_digits_digits.
    + apply frac6_digits.
    + apply frac6_length.
Qed.

(** An infinity or a NaN is written as a word. *)
Lemma format_6f_not_finite (x : float) :
  is_finite x = false ->
  format_6f x = "nan" \/ format_6f x = "inf" \/ format_6f x = "-inf".
Proof.
  unfold is_finite, format_6f. destruct (Prim2SF x) as [s | s | | s m e];
    try discriminate; intros _.
  - destruct s; auto.
  - auto.
Qed.

(** ** The lines of the document *)

Lemma data_line_fields (v : rgb) : data_line v = data_fields v +:+ LF.
Proof.
  destruct v as [[r g] b]. unfold data_line, data_fields.
  now rewrite !append_assoc.
Qed.

Lemma data_fields_avoids_LF (v : rgb) : avoids "010" (data_fields v) = true.
Proof.
  destruct v as [[r g] b]. unfold data_fields.
  rewrite !avoids_app, !format_6f_avoids by reflexivity. reflexivity.
Qed.

(** The three fields of a data line are the three formatted channels. *)
Lemma data_fields_split (r g b : float) :
  split_on " " (data_fields (r, g, b)) = [format_6f r; format_6f g; format_6f b].
Proof.
  unfold data_fields.
  change (" " +:+ format_6f g +:+ " " +:+ format_6f b)
    with (String " " (format_6f g +:+ String " " (format_6f b))).
  rewrite !split_on_app, split_on_avoids by (now apply format_6f_avoids).
  reflexivity.
Qed.

Lemma data_text_lines (l : list rgb) :
  concat_text (data_line <$> l) =
  concat_text ((fun s => s +:+ LF) <$> (data_fields <$> l)).
Proof.
  rewrite <- list_fmap_compose. f_equal. apply list_fmap_ext.
  intros i v _. apply data_line_fields.
Qed.

Lemma data_text_line_count (l : list rgb) :
  line_count (concat_text (data_line <$> l)) = length l.
Proof.
  unfold line_count. induction l as [|v l IH]; [reflexivity |].
  cbn [fmap list_fmap concat_text length]. fold (data_line <$> l).
  rewrite count_char_app, IH, data_line_fields, count_char_app.
  now rewrite (count_char_avoids _ _ (data_fields_avoids_LF v)).
Qed.

(** The document has one line more for each newline of its title. *)
Lemma document_line_count (title : string) (br bg : float) :
  line_count (document title br bg) =
  2 + lut_size * lut_size * lut_size + count_char "010" title.
Proof.
  unfold document. unfold line_count at 1.
  rewrite !count_char_app.
  change (count_char "010" (concat_text (data_line <$> grid br bg)))
    with (line_count (concat_text (data_line <$> grid br bg))).
  rewrite data_text_line_count, grid_length.
  change (count_char "010" "TITLE ") with 0.
  change (count_char "010" DQUOTE) with 0.
  change (count_char "010" LF) with 1.
  change (count_char "010" "LUT_3D_SIZE 33") with 0.
  lia.
Qed.

(** With no newline in the title, the lines are the two header lines and
    the data lines, each ended by a newline. *)
Lemma document_lines (title : string) (br bg : float) :
  avoids "010" title = true ->
  split_on "010" (document title br bg) =
  (("TITLE " +:+ DQUOTE +:+ title +:+ DQUOTE)
   :: "LUT_3D_SIZE 33"
   :: (data_fields <$> grid br bg) ++ [""])%list.
Proof.
  intros Htitle.
  assert (Hdoc : document title br bg =
    concat_text ((fun s => s +:+ String "010" "") <$>
      (("TITLE " +:+ DQUOTE +:+ title +:+ DQUOTE)
       :: "LUT_3D_SIZE 33" :: (data_fields <$> grid br bg)))).
  { unfold document. rewrite data_text_lines.
    cbn [fmap list_fmap concat_text]. fold LF.
    now rewrite !append_assoc. }
  rewrite Hdoc, split_on_lines; [now rewrite <- !app_comm_cons |].
  apply Forall_cons_2; [now rewrite !avoids_app, Htitle |].
  apply Forall_cons_2; [reflexivity |].
  apply Forall_fmap, Forall_forall. intros v _. apply data_fields_avoids_LF.
Qed.

Lemma data_lines_lookup (br bg : float) (r g b : nat) :
  r < lut_size -> g < lut_size -> b < lut_size ->
  (data_fields <$> grid br bg) !! ((r * lut_size + g) * lut_size + b) =
  Some (data_fields (cell br bg r g b)).
Proof.
  intros Hr Hg Hb.
  destruct (flat_encode lut_size r g b Hr Hg Hb) as (Hi & Er & Eg & Eb).
  rewrite list_lookup_fmap, grid_lookup by assumption.
  unfold cell_at. now rewrite Er, Eg, Eb.
Qed.

(** ** Inputs with the expected shape *)

Lemma make_input_name (name : json) (balance : list json) :
  getitem_key (make_input name balance) "name" = Returned name.
Proof. unfold make_input, getitem_key. now rewrite lookup_insert_eq. Qed.

Lemma make_input_balance (name : json) (balance : list json) :
  color_balance (make_input name balance) = Returned (JList balance).
Proof.
  unfold make_input, color_balance, getitem_key.
  rewrite lookup_insert_ne by discriminate. rewrite lookup_insert_eq. cbn [bind].
  rewrite lookup_singleton_eq. cbn [bind]. now rewrite lookup_singleton_eq.
Qed.

Lemma balance_factors_list (json_data b0 b1 : json) (rest : list json) :
  color_balance json_data = Returned (JList (b0 :: b1 :: rest)) ->
  balance_factors json_data =
  (br <- as_double b0 ;; bg <- as_double b1 ;; Returned (br, bg)).
Proof. intros H. unfold balance_factors. rewrite H. reflexivity. Qed.

Lemma balance_factors_numbers (json_data b0 b1 : json) (rest : list json)
    (br bg : float) :
  color_balance json_data = Returned (JList (b0 :: b1 :: rest)) ->
  as_double b0 = Returned br ->
  as_double b1 = Returned bg ->
  balance_factors json_data = Returned (br, bg).
Proof.
  intros H H0 H1. rewrite (balance_factors_list _ _ _ _ H), H0, H1. reflexivity.
Qed.

Lemma convert_returned (str_of_value : json -> string) (json_data name : json)
    (br bg : float) :
  balance_factors json_data = Returned (br, bg) ->
  getitem_key json_data "name" = Returned name ->
  convert_json_to_lut str_of_value json_data =
  Converted (document (py_str str_of_value name) br bg) name.
Proof. intros Hb Hn. now rewrite convert_json_to_lut_eq, Hb, Hn. Qed.

Lemma convert_make_input (str_of_value : json -> string) (name b0 b1 : json)
    (rest : list json) (br bg : float) :
  as_double b0 = Returned br ->
  as_double b1 = Returned bg ->
  convert_json_to_lut str_of_value (make_input name (b0 :: b1 :: rest)) =
  Converted (document (py_str str_of_value name) br bg) name.
Proof.
  intros H0 H1. apply convert_returned.
  - exact (balance_factors_numbers _ _ _ _ _ _ (make_input_balance _ _) H0 H1).
  - apply make_input_name.
Qed.

(** A conversion that returns, returns the document of its two factors. *)
Lemma convert_inv (str_of_value : json -> string) (json_data name : json)
    (text : string) :
  convert_json_to_lut str_of_value json_data = Converted text name ->
  exists br bg,
    balance_factors json_data = Returned (br, bg) /\
    getitem_key json_data "name" = Returned name /\
    text = document (py_str str_of_value name) br bg.
Proof.
  rewrite convert_json_to_lut_eq.
  destruct (balance_factors json_data) as [[br bg]|e]; [| discriminate].
  destruct (getitem_key json_data "name") as [name'|e]; [| discriminate].
  intros [= <- <-]. now exists br, bg.
Qed.

(** With a name that is a text, or no name at all, [str] is not consulted. *)
Lemma convert_text_name_any_str (f g : json -> string) (json_data : json) :
  (forall v, getitem_key json_data "name" = Returned v -> exists s, v = JStr s) ->
  convert_json_to_lut f json_data = convert_json_to_lut g json_data.
Proof.
  intros Hname. rewrite !convert_json_to_lut_eq.
  destruct (balance_factors json_data) as [[br bg]|e]; [| reflexivity].
  destruct (getitem_key json_data "name") as [v|e]; [| reflexivity].
  destruct (Hname v eq_refl) as [s ->]. reflexivity.
Qed.

Lemma cube_33 : lut_size * lut_size * lut_size = 33 * 33 * 33.
Proof. reflexivity. Qed.

(** * Main results *)

(** C1. When [data.s.colorBalance] is a list that starts with two numbers
    [br] and [bg], the generator returns a grid whose entry at [(r, g, b)],
    for [r], [g], [b] below N = 33, is
    [(r/(N-1)*br, g/(N-1)*bg, b/(N-1)*bg)]: blue is scaled by the green
    factor [bg]; the rest of the list is not read. *)
Theorem C1_grid_entry (json_data b0 b1 : json) (rest : list json)
    (br bg : float) (r g b : nat) :
  color_balance json_data = Returned (JList (b0 :: b1 :: rest)) ->
  as_double b0 = Returned br ->
  as_double b1 = Returned bg ->
  r < 33 -> g < 33 -> b < 33 ->
  exists lut,
    generate json_data = Returned lut /\
    lut_getitem lut_size lut r g b =
    Returned (float_of_nat r / float_of_nat (33 - 1) * br,
              float_of_nat g / float_of_nat (33 - 1) * bg,
              float_of_nat b / float_of_nat (33 - 1) * bg)%float.
Proof.
  intros Hcb H0 H1 Hr Hg Hb. exists (grid br bg). split.
  - rewrite generate_eq.
    now rewrite (balance_factors_numbers _ _ _ _ _ _ Hcb H0 H1).
  - exact (grid_getitem br bg r g b Hr Hg Hb).
Qed.

Lemma C1_grid_entry_witness :
  exists lut,
    generate test_input = Returned lut /\
    lut_getitem lut_size lut 32 32 32 =
    Returned (float_of_nat 32 / float_of_nat (33 - 1) * 1,
              float_of_nat 32 / float_of_nat (33 - 1) * 0.5,
              float_of_nat 32 / float_of_nat (33 - 1) * 0.5)%float.
Proof.
  apply (C1_grid_entry test_input (JFloat 1) (JFloat 0.5) [JFloat 0.5]
           1 0.5 32 32 32);
    [apply make_input_balance | reflexivity | reflexivity | lia | lia | lia].
Defined.

(** C2, refuted as stated: the title [a<newline>b] converts to a document of
    [2 + 33^3 + 1] lines. *)
Lemma C2_counterexample :
  exists text name,
    convert_json_to_lut str_not_called newline_title_input = Converted text name /\
    line_count text <> 2 + 33 * 33 * 33.
Proof.
  eexists _, _. split.
  - apply (convert_make_input _ _ _ _ _ 1%float 0.5%float); reflexivity.
  - rewrite document_line_count, cube_33. cbn [py_str].
    change (count_char "010" ("a" +:+ LF +:+ "b")) with 1. lia.
Qed.

(** C2, as amended. When the conversion returns, the document has
    [2 + 33^3] newline-terminated lines and one more for each newline in the
    title as written. So when the title holds no newline, the document is
    exactly [2 + 33^3] lines: the title line, the line [LUT_3D_SIZE 33], and
    [33^3 = 35937] data lines; 33 does not depend on the input. *)
Theorem C2_line_count (str_of_value : json -> string) (json_data name : json)
    (text : string) :
  convert_json_to_lut str_of_value json_data = Converted text name ->
  line_count text =
    2 + 33 * 33 * 33 + count_char "010" (py_str str_of_value name) /\
  (avoids "010" (py_str str_of_value name) = true ->
   exists data : list string,
     split_on "010" text =
       (("TITLE " +:+ DQUOTE +:+ py_str str_of_value name +:+ DQUOTE)
        :: "LUT_3D_SIZE 33" :: data ++ [""])%list /\
     length data = 33 * 33 * 33 /\
     Z.of_nat (length data) = 35937%Z /\
     line_count text = 2 + 33 * 33 * 33).
Proof.
  intros Hconv.
  destruct (convert_inv _ _ _ _ Hconv) as (br & bg & _ & _ & ->).
  split; [now rewrite document_line_count, cube_33 |].
  intros Htitle.
  exists (data_fields <$> grid br bg). split; [| split; [| split]].
  - now apply document_lines.
  - now rewrite length_fmap, grid_length.
  - rewrite length_fmap, grid_length, cube_33. reflexivity.
  - rewrite document_line_count, cube_33.
    rewrite (count_char_avoids _ _ Htitle). lia.
Qed.

Lemma C2_line_count_witness :
  line_count (document ("a" +:+ LF +:+ "b") 1 0.5) = 2 + 33 * 33 * 33 + 1 /\
  line_count (document "Test" 1 0.5) =
    2 + 33 * 33 * 33 + count_char "010" "Test" /\
  exists data : list string,
    split_on "010" (document "Test" 1 0.5) =
      (("TITLE " +:+ DQUOTE +:+ "Test" +:+ DQUOTE)
       :: "LUT_3D_SIZE 33" :: data ++ [""])%list /\
    length data = 33 * 33 * 33 /\
    Z.of_nat (length data) = 35937%Z /\
    line_count (document "Test" 1 0.5) = 2 + 33 * 33 * 33.
Proof.
  destruct (C2_line_count str_not_called test_input (JStr "Test")
              (document "Test" 1 0.5)
              (convert_make_input str_not_called (JStr "Test") (JFloat 1)
                 (JFloat 0.5) [JFloat 0.5] 1 0.5 eq_refl eq_refl))
    as [Hcount Hlines].
  destruct (C2_line_count str_not_called newline_title_input
              (JStr ("a" +:+ LF +:+ "b"))
              (document ("a" +:+ LF +:+ "b") 1 0.5)
              (convert_make_input str_not_called (JStr ("a" +:+ LF +:+ "b"))
                 (JFloat 1) (JFloat 0.5) [] 1 0.5 eq_refl eq_refl))
    as [Hnewline _].
  split; [exact Hnewline |]. split; [exact Hcount |].
  exact (Hlines eq_refl).
Defined.

(** C3, refuted as stated: with [colorBalance = [1e999, 1]] the first factor
    is an infinity, the conversion returns, and its first data line is
    [nan 0.000000 0.000000], whose first field is no decimal. *)
Lemma C3_counterexample :
  exists text name data l,
    convert_json_to_lut str_not_called infinite_balance_input = Converted text name /\
    split_on "010" text =
      (("TITLE " +:+ DQUOTE +:+ "Test" +:+ DQUOTE)
       :: "LUT_3D_SIZE 33" :: data ++ [""])%list /\
    data !! 0 = Some l /\
    l = "nan 0.000000 0.000000" /\
    well_formed_data_line l = false.
Proof.
  exists (document "Test" infinity 1), (JStr "Test"),
    (data_fields <$> grid infinity 1), (data_fields (cell infinity 1 0 0 0)).
  split; [| split; [| split; [| split]]].
  - exact (convert_make_input str_not_called (JStr "Test") (JFloat infinity)
             (JInt 1) [] infinity 1 eq_refl eq_refl).
  - now apply document_lines.
  - apply (data_lines_lookup infinity 1 0 0 0); unfold lut_size; lia.
  - vm_compute. reflexivity.
  - vm_compute. reflexivity.
Qed.

Lemma channel_text_format (x : float) : channel_text x (format_6f x).
Proof.
  unfold channel_text. split; [reflexivity |].
  destruct (is_finite x) eqn:E.
  - now apply format_6f_fixed6.
  - now apply format_6f_not_finite.
Qed.

(** C3, as amended. For every converted input the data lines follow the two
    header lines in nested order, red outermost and blue innermost: line
    number [(r*33 + g)*33 + b] is the one of grid entry [(r, g, b)]. It holds
    exactly three fields separated by single spaces, the three channels of
    that entry; a finite channel is written as a fixed-point decimal with
    exactly six digits after the point, an infinite or NaN channel as [inf],
    [-inf] or [nan]. *)
Theorem C3_data_lines (str_of_value : json -> string) (json_data name : json)
    (text : string) :
  convert_json_to_lut str_of_value json_data = Converted text name ->
  exists (br bg : float) (data : list string),
    balance_factors json_data = Returned (br, bg) /\
    text = title_line str_of_value name +:+ size_line
           +:+ concat_text ((fun l => l +:+ LF) <$> data) /\
    length data = 33 * 33 * 33 /\
    forall r g b, r < 33 -> g < 33 -> b < 33 ->
      exists l f1 f2 f3,
        data !! ((r * 33 + g) * 33 + b) = Some l /\
        split_on " " l = [f1; f2; f3] /\
        channel_text (coord r * br) f1 /\
        channel_text (coord g * bg) f2 /\
        channel_text (coord b * bg) f3 /\
        (is_finite (coord r * br) && is_finite (coord g * bg)
         && is_finite (coord b * bg) = true ->
         well_formed_data_line l = true).
Proof.
  intros Hconv.
  destruct (convert_inv _ _ _ _ Hconv) as (br & bg & Hb & _ & ->).
  exists br, bg, (data_fields <$> grid br bg).
  split; [exact Hb |]. split; [| split].
  - unfold document. rewrite data_text_lines, size_line_eq. reflexivity.
  - now rewrite length_fmap, grid_length.
  - intros r g b Hr Hg Hb'.
    exists (data_fields (cell br bg r g b)),
      (format_6f (coord r * br)), (format_6f (coord g * bg)),
      (format_6f (coord b * bg)).
    split; [exact (data_lines_lookup br bg r g b Hr Hg Hb') |].
    split; [apply data_fields_split |].
    split; [apply channel_text_format |].
    split; [apply channel_text_format |].
    split; [apply channel_text_format |].
    intros Hfin. apply andb_true_iff in Hfin as [Hfin H3].
    apply andb_true_iff in Hfin as [H1 H2].
    unfold well_formed_data_line, cell. rewrite data_fields_split.
    now rewrite !format_6f_fixed6.
Qed.

Lemma C3_data_lines_witness :
  exists (br bg : float) (data : list string),
    balance_factors test_input = Returned (br, bg) /\
    document "Test" 1 0.5 =
      title_line str_not_called (JStr "Test") +:+ size_line
      +:+ concat_text ((fun l => l +:+ LF) <$> data) /\
    length data = 33 * 33 * 33 /\
    forall r g b, r < 33 -> g < 33 -> b < 33 ->
      exists l f1 f2 f3,
        data !! ((r * 33 + g) * 33 + b) = Some l /\
        split_on " " l = [f1; f2; f3] /\
        channel_text (coord r * br) f1 /\
        channel_text (coord g * bg) f2 /\
        channel_text (coord b * bg) f3 /\
        (is_finite (coord r * br) && is_finite (coord g * bg)
         && is_finite (coord b * bg) = true ->
         well_formed_data_line l = true).
Proof.
  apply (C3_data_lines str_not_called test_input (JStr "Test")).
  exact (convert_make_input str_not_called (JStr "Test") (JFloat 1)
           (JFloat 0.5) [JFloat 0.5] 1 0.5 eq_refl eq_refl).
Defined.

(** C4. Two inputs that agree on [name] and on elements 0 and 1 of
    [data.s.colorBalance] (a list of two elements or more in both) convert
    to the same outcome: the same text and the same file name, or the same
    error. What else the inputs hold, the rest of the list included, plays
    no part; and when the two elements are numbers and the name is there,
    the conversion returns, a list of exactly two included. *)
Theorem C4_depends_only_on_name_and_two_factors
    (str_of_value : json -> string) (d1 d2 b0 b1 : json)
    (rest1 rest2 : list json) :
  getitem_key d1 "name" = getitem_key d2 "name" ->
  color_balance d1 = Returned (JList (b0 :: b1 :: rest1)) ->
  color_balance d2 = Returned (JList (b0 :: b1 :: rest2)) ->
  convert_json_to_lut str_of_value d1 = convert_json_to_lut str_of_value d2 /\
  (forall name br bg,
     getitem_key d1 "name" = Returned name ->
     as_double b0 = Returned br ->
     as_double b1 = Returned bg ->
     exists text,
       convert_json_to_lut str_of_value d1 = Converted text name /\
       convert_json_to_lut str_of_value d2 = Converted text name /\
       download_name (py_str str_of_value name) =
         replace_char " " "_" (py_str str_of_value name) +:+ ".cube").
Proof.
  intros Hname H1 H2.
  assert (Hf : balance_factors d1 = balance_factors d2).
  { now rewrite (balance_factors_list _ _ _ _ H1), (balance_factors_list _ _ _ _ H2). }
  split.
  - now rewrite !convert_json_to_lut_eq, Hf, Hname.
  - intros name br bg Hn Hbr Hbg.
    exists (document (py_str str_of_value name) br bg).
    split; [| split; [| reflexivity]].
    + apply convert_returned; [| exact Hn].
      exact (balance_factors_numbers _ _ _ _ _ _ H1 Hbr Hbg).
    + apply convert_returned; [| now rewrite <- Hname].
      exact (balance_factors_numbers _ _ _ _ _ _ H2 Hbr Hbg).
Qed.

Lemma extra_fields_input_name :
  getitem_key extra_fields_input "name" = Returned (JStr "Test").
Proof.
  unfold extra_fields_input, getitem_key. now rewrite lookup_insert_eq.
Qed.

Lemma extra_fields_input_balance :
  color_balance extra_fields_input =
  Returned (JList [JFloat 1; JFloat 0.5; JFloat 0.25; JStr "x"]).
Proof.
  unfold extra_fields_input, color_balance, getitem_key.
  rewrite !lookup_insert_ne by discriminate. rewrite lookup_insert_eq. cbn [bind].
  rewrite lookup_insert_eq. cbn [bind]. now rewrite lookup_insert_eq.
Qed.

Lemma C4_depends_only_on_name_and_two_factors_witness :
  convert_json_to_lut str_not_called two_factor_input =
  convert_json_to_lut str_not_called extra_fields_input /\
  (forall name br bg,
     getitem_key two_factor_input "name" = Returned name ->
     as_double (JFloat 1) = Returned br ->
     as_double (JFloat 0.5) = Returned bg ->
     exists text,
       convert_json_to_lut str_not_called two_factor_input = Converted text name /\
       convert_json_to_lut str_not_called extra_fields_input = Converted text name /\
       download_name (py_str str_not_called name) =
         replace_char " " "_" (py_str str_not_called name) +:+ ".cube").
Proof.
  apply (C4_depends_only_on_name_and_two_factors str_not_called
           two_factor_input extra_fields_input (JFloat 1) (JFloat 0.5)
           [] [JFloat 0.25; JStr "x"]).
  - unfold two_factor_input. now rewrite make_input_name, extra_fields_input_name.
  - apply make_input_balance.
  - apply extra_fields_input_balance.
Defined.

(** C5. When [data], [data.s] or [data.s.colorBalance] is missing, the
    conversion raises: the caller gets the [ValueError] made from the
    [KeyError], and no text. An outcome that is an error never carries
    text, whatever the input. *)
Theorem C5_missing_color_balance (str_of_value : json -> string)
    (m : gmap string json) :
  (m !! "data" = None \/
   exists md, m !! "data" = Some (JDict md) /\
     (md !! "s" = None \/
      exists ms, md !! "s" = Some (JDict ms) /\ ms !! "colorBalance" = None)) ->
  convert_json_to_lut str_of_value (JDict m) = ValueError KeyError /\
  returned_text (convert_json_to_lut str_of_value (JDict m)) = None /\
  (forall json_data e,
     convert_json_to_lut str_of_value json_data = ValueError e ->
     returned_text (convert_json_to_lut str_of_value json_data) = None).
Proof.
  intros Hmissing.
  assert (Hf : balance_factors (JDict m) = Raised KeyError).
  { unfold balance_factors, color_balance, getitem_key.
    destruct Hmissing as [Hd | (md & Hd & [Hs | (ms & Hs & Hc)])];
      rewrite Hd; cbn [bind]; [reflexivity | |].
    - now rewrite Hs.
    - rewrite Hs. cbn [bind]. now rewrite Hc. }
  assert (Hc : convert_json_to_lut str_of_value (JDict m) = ValueError KeyError).
  { now rewrite convert_json_to_lut_eq, Hf. }
  split; [exact Hc |]. split; [now rewrite Hc |].
  intros json_data e He. now rewrite He.
Qed.

Lemma C5_missing_color_balance_witness :
  convert_json_to_lut str_not_called (JDict no_data_input) = ValueError KeyError /\
  returned_text (convert_json_to_lut str_not_called (JDict no_data_input)) = None /\
  (forall json_data e,
     convert_json_to_lut str_not_called json_data = ValueError e ->
     returned_text (convert_json_to_lut str_not_called json_data) = None).
Proof.
  apply (C5_missing_color_balance str_not_called no_data_input).
  left. unfold no_data_input. apply lookup_singleton_ne. discriminate.
Defined.

(** ** The title in the document *)

Lemma document_title (title : string) (br bg : float) :
  document title br bg =
  ("TITLE " +:+ DQUOTE +:+ title +:+ DQUOTE +:+ LF)
  +:+ ("LUT_3D_SIZE 33" +:+ LF) +:+ concat_text (data_line <$> grid br bg).
Proof. reflexivity. Qed.

Lemma convert_text_title (str_of_value : json -> string) (json_data : json)
    (title : string) (br bg : float) :
  getitem_key json_data "name" = Returned (JStr title) ->
  balance_factors json_data = Returned (br, bg) ->
  convert_json_to_lut str_of_value json_data =
  Converted (("TITLE " +:+ DQUOTE +:+ title +:+ DQUOTE +:+ LF)
             +:+ ("LUT_3D_SIZE 33" +:+ LF)
             +:+ concat_text (data_line <$> grid br bg))
            (JStr title).
Proof.
  intros Hn Hb. rewrite (convert_returned _ _ _ _ _ Hb Hn).
  cbn [py_str]. now rewrite document_title.
Qed.

Lemma lookup_second {A : Type} (a b : A) (l : list A) :
  (a :: b :: l) !! 1 = Some b.
Proof. reflexivity. Qed.

(** C6, refuted as stated: the empty title is not rejected; the conversion
    returns a document whose first line is [TITLE] and two double quotes. *)
Lemma C6_counterexample :
  exists rest,
    blank "" = true /\
    convert_json_to_lut str_not_called empty_title_input =
    Converted (("TITLE " +:+ DQUOTE +:+ "" +:+ DQUOTE +:+ LF) +:+ rest) (JStr "").
Proof.
  eexists. split; [reflexivity |].
  apply convert_text_title.
  - apply make_input_name.
  - exact (balance_factors_numbers _ _ _ _ _ _ (make_input_balance _ _)
             (eq_refl : as_double (JFloat 1) = Returned 1%float)
             (eq_refl : as_double (JFloat 0.5) = Returned 0.5%float)).
Qed.

(** C6, as amended. The serializer does not validate the title: for an
    input whose title is empty or made of whitespace only (and whose two
    factors are numbers), the conversion returns a document whose first line
    is [TITLE], a space and the title as it is between double quotes. *)
Theorem C6_blank_title_accepted (str_of_value : json -> string)
    (json_data : json) (title : string) (br bg : float) :
  getitem_key json_data "name" = Returned (JStr title) ->
  blank title = true ->
  balance_factors json_data = Returned (br, bg) ->
  exists rest,
    convert_json_to_lut str_of_value json_data =
    Converted (("TITLE " +:+ DQUOTE +:+ title +:+ DQUOTE +:+ LF) +:+ rest)
              (JStr title).
Proof.
  intros Hn _ Hb. eexists. exact (convert_text_title _ _ _ _ _ Hn Hb).
Qed.

Lemma C6_blank_title_accepted_witness :
  exists rest,
    convert_json_to_lut str_not_called (make_input (JStr "  ") [JFloat 1; JFloat 0.5]) =
    Converted (("TITLE " +:+ DQUOTE +:+ "  " +:+ DQUOTE +:+ LF) +:+ rest)
              (JStr "  ").
Proof.
  apply (C6_blank_title_accepted str_not_called
           (make_input (JStr "  ") [JFloat 1; JFloat 0.5]) "  " 1 0.5).
  - apply make_input_name.
  - reflexivity.
  - exact (balance_factors_numbers _ _ _ _ _ _ (make_input_balance _ _)
             (eq_refl : as_double (JFloat 1) = Returned 1%float)
             (eq_refl : as_double (JFloat 0.5) = Returned 0.5%float)).
Defined.

(** ** The conversion in a heap against the conversion on values *)

Section Simulation.

Context {St : Type}.
Variable get : Stateful.heap -> option St.
Variable put : St -> Stateful.heap -> Stateful.heap.
Variable Inv : Stateful.heap -> Prop.
Hypothesis get_put : forall h s s', get h = Some s -> get (put s' h) = Some s'.
Hypothesis inv_put : forall h s, Inv h -> Inv (put s h).
Hypothesis put_put : forall h s s', put s' (put s h) = put s' h.
Hypothesis put_get : forall h s, get h = Some s -> put s h = h.

Lemma simulates_for_range_from (bodyM : nat -> Stateful.M unit)
    (body : nat -> St -> result St) :
  (forall i, simulates get put Inv (bodyM i) (body i)) ->
  forall count start,
    simulates get put Inv (Stateful.for_range_from start count bodyM)
              (for_range_from start count body).
Proof.
  intros Hbody. induction count as [|count IH]; intros start h s Hinv Hget.
  - cbn. unfold Stateful.ret. now rewrite (put_get _ _ Hget).
  - cbn [for_range_from Stateful.for_range_from]. unfold Stateful.and_then.
    specialize (Hbody start h s Hinv Hget).
    destruct (body start s) as [s1|e]; cbn [bind].
    + rewrite Hbody.
      specialize (IH (S start) (put s1 h) s1 (inv_put _ _ Hinv)
                     (get_put _ _ _ Hget)).
      destruct (for_range_from (S start) count body s1) as [s2|e].
      * now rewrite IH, put_put.
      * exact IH.
    + destruct (bodyM start h) as [[u|e'] h']; cbn in Hbody |- *;
        [discriminate | exact Hbody].
Qed.

Lemma simulates_for_range (bodyM : nat -> Stateful.M unit)
    (body : nat -> St -> result St) (n : nat) :
  (forall i, simulates get put Inv (bodyM i) (body i)) ->
  simulates get put Inv (Stateful.for_range n bodyM) (for_range n body).
Proof. intros H. now apply simulates_for_range_from. Qed.

End Simulation.

Lemma get_put_array (a : nat) (h : Stateful.heap) (s s' : list rgb) :
  get_array a h = Some s -> get_array a (put_array a s' h) = Some s'.
Proof.
  unfold get_array, put_array. intros H. cbn.
  apply list_lookup_insert_eq. exact (lookup_lt_Some _ _ _ H).
Qed.

Lemma put_put_array (a : nat) (h : Stateful.heap) (s s' : list rgb) :
  put_array a s' (put_array a s h) = put_array a s' h.
Proof. unfold put_array. cbn. now rewrite list_insert_insert_eq. Qed.

Lemma put_get_array (a : nat) (h : Stateful.heap) (s : list rgb) :
  get_array a h = Some s -> put_array a s h = h.
Proof.
  unfold get_array, put_array. intros H. destruct h as [arrs bufs]. cbn in *.
  now rewrite list_insert_id.
Qed.

Lemma get_put_buffer (o : nat) (h : Stateful.heap) (s s' : string) :
  get_buffer o h = Some s -> get_buffer o (put_buffer o s' h) = Some s'.
Proof.
  unfold get_buffer, put_buffer. intros H. cbn.
  apply list_lookup_insert_eq. exact (lookup_lt_Some _ _ _ H).
Qed.

Lemma put_put_buffer (o : nat) (h : Stateful.heap) (s s' : string) :
  put_buffer o s' (put_buffer o s h) = put_buffer o s' h.
Proof. unfold put_buffer. cbn. now rewrite list_insert_insert_eq. Qed.

Lemma put_get_buffer (o : nat) (h : Stateful.heap) (s : string) :
  get_buffer o h = Some s -> put_buffer o s h = h.
Proof.
  unfold get_buffer, put_buffer. intros H. destruct h as [arrs bufs]. cbn in *.
  now rewrite list_insert_id.
Qed.

Lemma fill_cell_simulates (json_data : json) (a r g b : nat) :
  simulates (get_array a) (put_array a) (fun _ => True)
    (Stateful.fill_cell json_data a r g b) (fill_cell json_data r g b).
Proof.
  intros h arr _ Hget.
  unfold Stateful.fill_cell, fill_cell, Stateful.and_then, Stateful.lift.
  destruct (truediv r (lut_size - 1)) as [r_val|]; cbn [bind fst]; [| reflexivity].
  destruct (truediv g (lut_size - 1)) as [g_val|]; cbn [bind fst]; [| reflexivity].
  destruct (truediv b (lut_size - 1)) as [b_val|]; cbn [bind fst]; [| reflexivity].
  destruct (getitem_key json_data "data") as [data|]; cbn [bind fst]; [| reflexivity].
  destruct (getitem_key data "s") as [s|]; cbn [bind fst]; [| reflexivity].
  destruct (getitem_key s "colorBalance") as [balance|]; cbn [bind fst];
    [| reflexivity].
  destruct (apply_color_balance r_val g_val b_val balance) as [adj|];
    cbn [bind fst]; [| reflexivity].
  unfold Stateful.setitem, lut_setitem. unfold get_array in Hget.
  destruct (cell_index lut_size r g b) as [i|e]; cbn [bind fst];
    [| reflexivity].
  now rewrite Hget.
Qed.

Lemma fill_lut_simulates (json_data : json) (a : nat) :
  simulates (get_array a) (put_array a) (fun _ => True)
    (Stateful.fill_lut json_data a) (fill_lut json_data).
Proof.
  unfold Stateful.fill_lut, fill_lut.
  pose proof (get_put_array a) as H1. pose proof (put_put_array a) as H2.
  pose proof (put_get_array a) as H3.
  apply simulates_for_range; auto. intros r.
  apply simulates_for_range; auto. intros g.
  apply simulates_for_range; auto. intros b.
  apply fill_cell_simulates.
Qed.

Lemma write_cell_simulates (lut : list rgb) (a o r g b : nat) :
  simulates (get_buffer o) (put_buffer o) (fun h => get_array a h = Some lut)
    (Stateful.write_cell a o r g b) (write_cell lut r g b).
Proof.
  intros h out Hinv Hget.
  unfold Stateful.write_cell, write_cell, Stateful.and_then, Stateful.getitem.
  unfold get_array in Hinv. rewrite Hinv.
  destruct (lut_getitem lut_size lut r g b) as [v|e]; cbn [bind fst];
    [| reflexivity].
  unfold Stateful.write. unfold get_buffer in Hget. now rewrite Hget.
Qed.

Lemma write_rows_simulates (lut : list rgb) (a o : nat) :
  simulates (get_buffer o) (put_buffer o) (fun h => get_array a h = Some lut)
    (Stateful.write_rows a o) (write_rows lut).
Proof.
  unfold Stateful.write_rows, write_rows.
  pose proof (get_put_buffer o) as H1. pose proof (put_put_buffer o) as H2.
  pose proof (put_get_buffer o) as H3.
  assert (H4 : forall h s, get_array a h = Some lut ->
                           get_array a (put_buffer o s h) = Some lut)
    by (intros h s H; exact H).
  apply simulates_for_range; auto. intros r.
  apply simulates_for_range; auto. intros g.
  apply simulates_for_range; auto. intros b.
  apply write_cell_simulates.
Qed.

Lemma and_then_returned {A B : Type} (m : Stateful.M A) (k : A -> Stateful.M B)
    (h h' : Stateful.heap) (a : A) :
  m h = (Returned a, h') -> Stateful.and_then m k h = k a h'.
Proof. intros H. unfold Stateful.and_then. now rewrite H. Qed.

Lemma and_then_raised {A B : Type} (m : Stateful.M A) (k : A -> Stateful.M B)
    (h : Stateful.heap) (e : exn) :
  fst (m h) = Raised e -> fst (Stateful.and_then m k h) = Raised e.
Proof.
  intros H. unfold Stateful.and_then.
  destruct (m h) as [[a|e'] h']; cbn in H |- *; [discriminate | congruence].
Qed.

Lemma try_except_raised (m : Stateful.M (string * json)) (h : Stateful.heap)
    (e : exn) :
  fst (m h) = Raised e -> fst (Stateful.try_except m h) = ValueError e.
Proof.
  intros H. unfold Stateful.try_except.
  destruct (m h) as [r h']. cbn in H |- *. now rewrite H.
Qed.

Lemma lookup_last {A : Type} (l : list A) (x : A) :
  (l ++ [x])%list !! length l = Some x.
Proof. now apply list_lookup_middle. Qed.

Lemma insert_last {A : Type} (l : list A) (x y : A) :
  <[length l := y]> (l ++ [x])%list = (l ++ [y])%list.
Proof.
  rewrite insert_app_r_alt by lia. now rewrite Nat.sub_diag.
Qed.

(** A call in any heap gives the outcome of the conversion on values. When
    it returns, the heap has two objects more, the array and the buffer,
    and the objects that were there are as they were. *)
Lemma stateful_convert_eq (str_of_value : json -> string) (json_data : json)
    (h : Stateful.heap) :
  match convert_json_to_lut str_of_value json_data with
  | Converted text name =>
      exists lut,
        Stateful.convert_json_to_lut str_of_value json_data h =
        (Converted text name,
         Stateful.Heap (Stateful.arrays h ++ [lut]) (Stateful.buffers h ++ [text]))
  | ValueError e =>
      fst (Stateful.convert_json_to_lut str_of_value json_data h) = ValueError e
  end.
Proof.
  unfold convert_json_to_lut, Stateful.convert_json_to_lut, generate.
  set (a := length (Stateful.arrays h)).
  set (o := length (Stateful.buffers h)).
  set (h1 := Stateful.Heap (Stateful.arrays h ++ [np_zeros lut_size])
                            (Stateful.buffers h)).
  assert (Hz : Stateful.np_zeros lut_size h = (Returned a, h1)) by reflexivity.
  assert (Hget1 : get_array a h1 = Some (np_zeros lut_size))
    by apply lookup_last.
  pose proof (fill_lut_simulates json_data a h1 _ I Hget1) as Hfill.
  destruct (fill_lut json_data (np_zeros lut_size)) as [lut|e]; cbn [bind].
  2:{ cbn [try_except]. apply try_except_raised.
      rewrite (and_then_returned _ _ _ _ _ Hz). now apply and_then_raised. }
  assert (Hh2 : put_array a lut h1 =
                Stateful.Heap (Stateful.arrays h ++ [lut]) (Stateful.buffers h)).
  { unfold put_array, h1, a. cbn [Stateful.arrays Stateful.buffers]. now rewrite insert_last. }
  rewrite Hh2 in Hfill. clear Hh2 Hget1.
  set (h2 := Stateful.Heap (Stateful.arrays h ++ [lut]) (Stateful.buffers h)) in *.
  set (h3 := Stateful.Heap (Stateful.arrays h ++ [lut])
                            (Stateful.buffers h ++ [""])).
  assert (Hs : Stateful.StringIO h2 = (Returned o, h3)) by reflexivity.
  destruct (getitem_key json_data "name") as [name|e] eqn:Hname; cbn [bind].
  2:{ cbn [try_except]. apply try_except_raised.
      rewrite (and_then_returned _ _ _ _ _ Hz).
      rewrite (and_then_returned _ _ _ _ _ Hfill).
      rewrite (and_then_returned _ _ _ _ _ Hs).
      apply and_then_raised. reflexivity. }
  set (out := ("" +:+ title_line str_of_value name) +:+ size_line).
  set (h5 := Stateful.Heap (Stateful.arrays h ++ [lut])
                            (Stateful.buffers h ++ [out])).
  assert (Hw1 : Stateful.write o (title_line str_of_value name) h3 =
                (Returned tt,
                 Stateful.Heap (Stateful.arrays h ++ [lut])
                   (Stateful.buffers h ++ ["" +:+ title_line str_of_value name]))).
  { unfold Stateful.write, h3, o. cbn [Stateful.arrays Stateful.buffers]. now rewrite lookup_last, insert_last. }
  assert (Hw2 : Stateful.write o size_line
                  (Stateful.Heap (Stateful.arrays h ++ [lut])
                     (Stateful.buffers h ++ ["" +:+ title_line str_of_value name])) =
                (Returned tt, h5)).
  { unfold Stateful.write, h5, o, out. cbn [Stateful.arrays Stateful.buffers]. now rewrite lookup_last, insert_last. }
  assert (Hinv5 : get_array a h5 = Some lut) by apply lookup_last.
  assert (Hget5 : get_buffer o h5 = Some out) by apply lookup_last.
  pose proof (write_rows_simulates lut a o h5 out Hinv5 Hget5) as Hrows.
  fold out.
  destruct (write_rows lut out) as [text|e]; cbn [bind].
  2:{ cbn [try_except]. apply try_except_raised.
      rewrite (and_then_returned _ _ _ _ _ Hz).
      rewrite (and_then_returned _ _ _ _ _ Hfill).
      rewrite (and_then_returned _ _ _ _ _ Hs).
      rewrite (and_then_returned (Stateful.lift _) _ h3 h3 name eq_refl).
      rewrite (and_then_returned _ _ _ _ _ Hw1).
      rewrite (and_then_returned _ _ _ _ _ Hw2).
      now apply and_then_raised. }
  assert (Hh6 : put_buffer o text h5 =
                Stateful.Heap (Stateful.arrays h ++ [lut])
                              (Stateful.buffers h ++ [text])).
  { unfold put_buffer, h5, o. cbn [Stateful.arrays Stateful.buffers]. now rewrite insert_last. }
  rewrite Hh6 in Hrows. clear Hh6.
  set (h6 := Stateful.Heap (Stateful.arrays h ++ [lut])
                            (Stateful.buffers h ++ [text])) in *.
  assert (Hv : Stateful.getvalue o h6 = (Returned text, h6)).
  { unfold Stateful.getvalue, h6, o. cbn [Stateful.arrays Stateful.buffers]. now rewrite lookup_last. }
  cbn [try_except]. exists lut.
  unfold Stateful.try_except.
  rewrite (and_then_returned _ _ _ _ _ Hz).
  rewrite (and_then_returned _ _ _ _ _ Hfill).
  rewrite (and_then_returned _ _ _ _ _ Hs).
  rewrite (and_then_returned (Stateful.lift _) _ h3 h3 name eq_refl).
  rewrite (and_then_returned _ _ _ _ _ Hw1).
  rewrite (and_then_returned _ _ _ _ _ Hw2).
  rewrite (and_then_returned _ _ _ _ _ Hrows).
  rewrite (and_then_returned _ _ _ _ _ Hv).
  rewrite (and_then_returned (Stateful.lift _) _ h6 h6 name eq_refl).
  reflexivity.
Qed.

Lemma stateful_convert_outcome (str_of_value : json -> string)
    (json_data : json) (h : Stateful.heap) :
  fst (Stateful.convert_json_to_lut str_of_value json_data h) =
  convert_json_to_lut str_of_value json_data.
Proof.
  pose proof (stateful_convert_eq str_of_value json_data h) as H.
  destruct (convert_json_to_lut str_of_value json_data) as [text name|e].
  - destruct H as [lut ->]. reflexivity.
  - exact H.
Qed.

(** C7. Two runs of the conversion on the same input, one after the other,
    give the same outcome: the same text and the same file name, or the
    same error. The second run starts in the heap the first one left, where
    the array and the buffer of the first run still are (the buffer holding
    the whole text); it creates its own, and nothing of what it finds there
    reaches its result: the outcome of a run is the same in every heap. *)
Theorem C7_conversion_deterministic (str_of_value : json -> string)
    (json_data : json) (h0 : Stateful.heap) :
  exists o h1 h2,
    Stateful.convert_json_to_lut str_of_value json_data h0 = (o, h1) /\
    Stateful.convert_json_to_lut str_of_value json_data h1 = (o, h2) /\
    Stateful.run_twice str_of_value json_data h0 = (o, o, h2) /\
    o = convert_json_to_lut str_of_value json_data /\
    (forall text name,
       o = Converted text name ->
       exists lut,
         h1 = Stateful.Heap (Stateful.arrays h0 ++ [lut])
                            (Stateful.buffers h0 ++ [text])).
Proof.
  pose proof (stateful_convert_outcome str_of_value json_data h0) as H1.
  pose proof (stateful_convert_eq str_of_value json_data h0) as Hheap.
  unfold Stateful.run_twice.
  destruct (Stateful.convert_json_to_lut str_of_value json_data h0)
    as [o1 h1] eqn:E1.
  pose proof (stateful_convert_outcome str_of_value json_data h1) as H2.
  destruct (Stateful.convert_json_to_lut str_of_value json_data h1)
    as [o2 h2] eqn:E2.
  cbn [fst] in H1, H2. subst o1 o2.
  exists (convert_json_to_lut str_of_value json_data), h1, h2.
  split; [reflexivity |]. split; [exact E2 |]. split; [reflexivity |].
  split; [reflexivity |].
  intros text name Ho. rewrite Ho in Hheap.
  destruct Hheap as [lut [= Hh1]]. now exists lut.
Qed.

(** C8, refuted as stated: the document made from the scenario is not one
    of resolution 2; its second line is [LUT_3D_SIZE 33]. *)
Lemma C8_counterexample :
  exists text name,
    convert_json_to_lut str_not_called test_input = Converted text name /\
    ~ generated_at 2 text.
Proof.
  exists (document "Test" 1 0.5), (JStr "Test"). split.
  - exact (convert_make_input str_not_called (JStr "Test") (JFloat 1)
             (JFloat 0.5) [JFloat 0.5] 1 0.5 eq_refl eq_refl).
  - intros [H _]. rewrite document_lines, lookup_second in H by reflexivity.
    vm_compute in H. discriminate H.
Qed.

(** C8, as amended. The scenario
    [{"name": "Test", "data": {"s": {"colorBalance": [1.0, 0.5, 0.5]}}}]
    converts, at the fixed resolution 33: among its [33^3] data lines the
    first, for [r = g = b = 0], is [0.000000 0.000000 0.000000] and the
    last, for [r = g = b = 32], is [1.000000 0.500000 0.500000]. *)
Theorem C8_test_scenario :
  exists text data,
    convert_json_to_lut str_not_called test_input = Converted text (JStr "Test") /\
    generated_at 33 text /\
    split_on "010" text =
      (("TITLE " +:+ DQUOTE +:+ "Test" +:+ DQUOTE)
       :: "LUT_3D_SIZE 33" :: data ++ [""])%list /\
    length data = 33 * 33 * 33 /\
    data !! ((0 * 33 + 0) * 33 + 0) = Some "0.000000 0.000000 0.000000" /\
    data !! ((32 * 33 + 32) * 33 + 32) = Some "1.000000 0.500000 0.500000".
Proof.
  exists (document "Test" 1 0.5), (data_fields <$> grid 1 0.5).
  assert (Hlines := document_lines "Test" 1 0.5 eq_refl).
  split; [| split; [| split; [| split; [| split]]]].
  - exact (convert_make_input str_not_called (JStr "Test") (JFloat 1)
             (JFloat 0.5) [JFloat 0.5] 1 0.5 eq_refl eq_refl).
  - split.
    + now rewrite Hlines, lookup_second.
    + rewrite document_line_count, cube_33.
      change (count_char "010" "Test") with 0. lia.
  - exact Hlines.
  - now rewrite length_fmap, grid_length.
  - assert (H : 0 < lut_size) by (unfold lut_size; lia).
    refine (eq_trans (data_lines_lookup 1 0.5 0 0 0 H H H) _).
    vm_compute. reflexivity.
  - assert (H : 32 < lut_size) by (unfold lut_size; lia).
    refine (eq_trans (data_lines_lookup 1 0.5 32 32 32 H H H) _).
    vm_compute. reflexivity.
Qed.

(** ** The download name *)

Lemma replace_char_length (old new : ascii) (s : string) :
  String.length (replace_char old new s) = String.length s.
Proof. induction s as [|c s IH]; cbn; [reflexivity | now rewrite IH]. Qed.

Lemma replace_char_get (old new : ascii) (s : string) :
  forall i,
    String.get i (replace_char old new s) =
    option_map (fun c => if Ascii.eqb c old then new else c) (String.get i s).
Proof.
  induction s as [|c s IH]; intros i; [reflexivity |].
  destruct i as [|i]; [reflexivity |]. cbn [replace_char String.get]. apply IH.
Qed.

(** C9, refuted as stated: a tab is whitespace and is not replaced; the
    name for the title [a<TAB>b] keeps the tab, where the rule for every
    whitespace character gives [a_b.cube]. *)
Lemma C9_counterexample :
  is_whitespace "009" = true /\
  spec_file_name tab_title = "a_b.cube" /\
  download_name tab_title = tab_title +:+ ".cube" /\
  download_name tab_title <> spec_file_name tab_title.
Proof.
  split; [reflexivity |]. split; [reflexivity |]. split; [reflexivity |].
  vm_compute. discriminate.
Qed.

(** C9, as amended. For every title the download name is the title with
    each space character (U+0020) replaced by an underscore and every other
    character kept, other whitespace included, followed by [.cube]. The
    document is not touched by it: the TITLE line holds the title as it was
    given. *)
Theorem C9_download_name (title : string) :
  exists base,
    download_name title = base +:+ ".cube" /\
    String.length base = String.length title /\
    (forall i,
       String.get i base =
       option_map (fun c => if Ascii.eqb c " " then "_"%char else c)
                  (String.get i title)) /\
    (forall (str_of_value : json -> string) (json_data : json) (br bg : float),
       getitem_key json_data "name" = Returned (JStr title) ->
       balance_factors json_data = Returned (br, bg) ->
       exists rest,
         convert_json_to_lut str_of_value json_data =
         Converted (("TITLE " +:+ DQUOTE +:+ title +:+ DQUOTE +:+ LF) +:+ rest)
                   (JStr title)).
Proof.
  exists (replace_char " " "_" title).
  split; [reflexivity |]. split; [apply replace_char_length |].
  split; [apply replace_char_get |].
  intros str_of_value json_data br bg Hn Hb. eexists.
  exact (convert_text_title _ _ _ _ _ Hn Hb).
Qed.

(** C10. The title is written as it is between the double quotes of the
    first line, nothing escaped: when the name is a text and the two factors
    are numbers, the conversion returns the text [TITLE], a space, a double
    quote, the name, a double quote, a newline, and the rest. Each newline of
    the name is one more line: a name with a newline in it gives more than
    [2 + 33^3] lines. *)
Theorem C10_title_verbatim (str_of_value : json -> string) (json_data : json)
    (title : string) (br bg : float) :
  getitem_key json_data "name" = Returned (JStr title) ->
  balance_factors json_data = Returned (br, bg) ->
  exists text rest,
    convert_json_to_lut str_of_value json_data = Converted text (JStr title) /\
    text = ("TITLE " +:+ DQUOTE +:+ title +:+ DQUOTE +:+ LF) +:+ rest /\
    line_count text = 2 + 33 * 33 * 33 + count_char "010" title /\
    (existsb_char "010" title = true -> 2 + 33 * 33 * 33 < line_count text).
Proof.
  intros Hn Hb.
  exists (document title br bg),
    (("LUT_3D_SIZE 33" +:+ LF) +:+ concat_text (data_line <$> grid br bg)).
  assert (Hcount : line_count (document title br bg) =
                   2 + 33 * 33 * 33 + count_char "010" title).
  { now rewrite document_line_count, cube_33. }
  split; [exact (convert_returned _ _ _ _ _ Hb Hn) |].
  split; [apply document_title |].
  split; [exact Hcount |].
  intros Hlf. rewrite Hcount. apply count_char_exists in Hlf. lia.
Qed.

Lemma C10_title_verbatim_witness :
  existsb_char "034" ("a" +:+ DQUOTE +:+ "b" +:+ LF +:+ "c") = true /\
  existsb_char "010" ("a" +:+ DQUOTE +:+ "b" +:+ LF +:+ "c") = true /\
  exists text rest,
    convert_json_to_lut str_not_called quote_newline_input =
      Converted text (JStr ("a" +:+ DQUOTE +:+ "b" +:+ LF +:+ "c")) /\
    text = ("TITLE " +:+ DQUOTE +:+ ("a" +:+ DQUOTE +:+ "b" +:+ LF +:+ "c")
            +:+ DQUOTE +:+ LF) +:+ rest /\
    line_count text =
      2 + 33 * 33 * 33 + count_char "010" ("a" +:+ DQUOTE +:+ "b" +:+ LF +:+ "c") /\
    (existsb_char "010" ("a" +:+ DQUOTE +:+ "b" +:+ LF +:+ "c") = true ->
     2 + 33 * 33 * 33 < line_count text).
Proof.
  split; [reflexivity |]. split; [reflexivity |].
  apply (C10_title_verbatim str_not_called quote_newline_input
           ("a" +:+ DQUOTE +:+ "b" +:+ LF +:+ "c") 1 0.5).
  - apply make_input_name.
  - exact (balance_factors_numbers _ _ _ _ _ _ (make_input_balance _ _)
             (eq_refl : as_double (JFloat 1) = Returned 1%float)
             (eq_refl : as_double (JFloat 0.5) = Returned 0.5%float)).
Defined.

(** * Concrete runs *)

Example format_half : format_6f 0.5 = "0.500000".
Proof. vm_compute. reflexivity. Qed.

(** Ties go to the even digit: 1/128 = 0.0078125 and 3/128 = 0.0234375. *)
Example format_ties :
  format_6f 0x1p-7 = "0.007812" /\ format_6f 0x1.8p-6 = "0.023438".
Proof. split; vm_compute; reflexivity. Qed.

Example format_negative_zero : format_6f (-0x1p-30) = "-0.000000".
Proof. vm_compute. reflexivity. Qed.

Example format_words :
  format_6f infinity = "inf" /\ format_6f neg_infinity = "-inf"
  /\ format_6f nan = "nan".
Proof. repeat split; vm_compute; reflexivity. Qed.

(** An int factor is converted before the product: the largest int that
    still rounds to a double is [2^1024 - 2^970 - 1]. *)
Example int_factor_range :
  as_double (JInt (2 ^ 1024 - 2 ^ 970 - 1)) = Returned 0x1.fffffffffffffp+1023%float /\
  as_double (JInt (2 ^ 1024 - 2 ^ 970)) = Raised OverflowError.
Proof. split; vm_compute; reflexivity. Qed.

(** A factor that is an int out of the range of doubles makes the
    conversion raise at the first cell. *)
Example huge_int_factor :
  convert_json_to_lut str_not_called
    (make_input (JStr "Test") [JInt (10 ^ 400); JFloat 0.5]) =
  ValueError OverflowError.
Proof.
  rewrite convert_json_to_lut_eq.
  rewrite (balance_factors_list _ _ _ _ (make_input_balance _ _)).
  vm_compute. reflexivity.
Qed.

(** A list of one factor, a factor that is a text, a balance that is not a
    list: each raises. *)
Example short_balance :
  convert_json_to_lut str_not_called (make_input (JStr "Test") [JFloat 1]) =
  ValueError IndexError.
Proof.
  rewrite convert_json_to_lut_eq. unfold balance_factors.
  rewrite make_input_balance. reflexivity.
Qed.

Example text_factor :
  convert_json_to_lut str_not_called
    (make_input (JStr "Test") [JStr "1.0"; JFloat 0.5]) =
  ValueError TypeError.
Proof.
  rewrite convert_json_to_lut_eq. unfold balance_factors.
  rewrite make_input_balance. reflexivity.
Qed.

(** Indexing a text counts code points: [é] is two bytes and one character. *)
Example str_getitem_code_points :
  getitem_index (JStr (String "195" (String "169" "x"))) 1 = Returned (JStr "x") /\
  getitem_index (JStr (String "195" (String "169" "x"))) 2 = Raised IndexError.
Proof. split; reflexivity. Qed.

Example download_name_spaces :
  download_name "My LUT v2" = "My_LUT_v2.cube".
Proof. reflexivity. Qed.

(** * Further results: when the conversion returns, and how it fails *)

Lemma str_getitem_first (s : string) :
  s <> "" -> exists c, str_getitem (String.length s) s 0 = Some c.
Proof. destruct s as [|x s]; [congruence |]. intros _. now eexists. Qed.

(** The two factors are read only from a list of two elements or more. *)
Lemma balance_factors_inv (json_data : json) (br bg : float) :
  balance_factors json_data = Returned (br, bg) ->
  exists b0 b1 rest,
    color_balance json_data = Returned (JList (b0 :: b1 :: rest)) /\
    as_double b0 = Returned br /\ as_double b1 = Returned bg.
Proof.
  unfold balance_factors.
  destruct (color_balance json_data) as [v|e]; cbn [bind]; [| discriminate].
  destruct v as [| | | | s | l | m]; try discriminate.
  - unfold getitem_index.
    destruct (str_getitem (String.length s) s 0); discriminate.
  - destruct l as [|b0 [|b1 rest]]; [discriminate | |].
    + cbn. destruct (as_double b0); discriminate.
    + cbn. destruct (as_double b0) as [x|] eqn:H0; cbn [bind]; [| discriminate].
      destruct (as_double b1) as [y|] eqn:H1; cbn [bind]; [| discriminate].
      intros [= <- <-]. now exists b0, b1, rest.
Qed.

(** X1. The conversion returns exactly when [data.s.colorBalance] is a list
    whose first two elements are numbers (floats, or ints and bools within
    the range of doubles) and the document has a [name]. *)
Theorem convert_returns_iff (str_of_value : json -> string) (json_data : json) :
  (exists text name,
     convert_json_to_lut str_of_value json_data = Converted text name) <->
  (exists b0 b1 rest br bg name,
     color_balance json_data = Returned (JList (b0 :: b1 :: rest)) /\
     as_double b0 = Returned br /\
     as_double b1 = Returned bg /\
     getitem_key json_data "name" = Returned name).
Proof.
  split.
  - intros (text & name & Hconv).
    destruct (convert_inv _ _ _ _ Hconv) as (br & bg & Hb & Hn & _).
    destruct (balance_factors_inv _ _ _ Hb) as (b0 & b1 & rest & Hcb & H0 & H1).
    now exists b0, b1, rest, br, bg, name.
  - intros (b0 & b1 & rest & br & bg & name & Hcb & H0 & H1 & Hn).
    exists (document (py_str str_of_value name) br bg), name.
    apply convert_returned; [| exact Hn].
    exact (balance_factors_numbers _ _ _ _ _ _ Hcb H0 H1).
Qed.

(** X2. A [colorBalance] list of fewer than two elements always fails: with
    [IndexError] when it is empty or when its only element is a number, and
    with the error of that element otherwise (the first product is evaluated
    before the second subscript). *)
Theorem short_balance_raises (str_of_value : json -> string) (json_data : json)
    (l : list json) :
  color_balance json_data = Returned (JList l) ->
  length l < 2 ->
  convert_json_to_lut str_of_value json_data =
  ValueError match l with
             | [] => IndexError
             | b0 :: _ =>
                 match as_double b0 with
                 | Raised e => e
                 | Returned _ => IndexError
                 end
             end.
Proof.
  intros Hcb Hlen. rewrite convert_json_to_lut_eq. unfold balance_factors.
  rewrite Hcb. cbn [bind].
  destruct l as [|b0 [|b1 rest]]; [reflexivity | | cbn in Hlen; lia].
  cbn. destruct (as_double b0); reflexivity.
Qed.

Lemma short_balance_raises_witness :
  convert_json_to_lut str_not_called (make_input (JStr "Test") [JStr "1.0"]) =
  ValueError TypeError.
Proof.
  apply (short_balance_raises str_not_called
           (make_input (JStr "Test") [JStr "1.0"]) [JStr "1.0"]).
  - apply make_input_balance.
  - cbn. lia.
Defined.

(** X3. A [colorBalance] that is not a list fails: a non-empty text can be
    subscripted but its character is no number ([TypeError]), an empty text
    has no element ([IndexError]), an object has no key [0] ([KeyError]),
    and null, a bool or a number cannot be subscripted ([TypeError]). *)
Theorem balance_not_a_list_raises (str_of_value : json -> string)
    (json_data v : json) :
  color_balance json_data = Returned v ->
  (forall l, v <> JList l) ->
  convert_json_to_lut str_of_value json_data =
  ValueError match v with
             | JStr "" => IndexError
             | JDict _ => KeyError
             | _ => TypeError
             end.
Proof.
  intros Hcb Hv. rewrite convert_json_to_lut_eq. unfold balance_factors.
  rewrite Hcb. cbn [bind].
  destruct v as [| | | | s | l | m]; try reflexivity.
  - destruct s as [|x s]; reflexivity.
  - now destruct (Hv l).
Qed.

Lemma balance_not_a_list_raises_witness :
  convert_json_to_lut str_not_called
    (JDict {["data" := JDict {["s" := JDict {["colorBalance" := JStr "12"]}]}]}) =
  ValueError TypeError.
Proof.
  apply (balance_not_a_list_raises str_not_called
           (JDict {["data" := JDict {["s" := JDict {["colorBalance" := JStr "12"]}]}]})
           (JStr "12")).
  - unfold color_balance, getitem_key.
    rewrite lookup_singleton_eq. cbn [bind].
    rewrite lookup_singleton_eq. cbn [bind]. now rewrite lookup_singleton_eq.
  - discriminate.
Defined.

(** X4. A value on the path [data.s.colorBalance] that is there but is not
    an object, the document itself included, makes the conversion fail with
    [TypeError]. *)
Theorem not_an_object_raises (str_of_value : json -> string) (json_data : json) :
  ((forall m, json_data <> JDict m) \/
   (exists m v, json_data = JDict m /\ m !! "data" = Some v /\
      ((forall md, v <> JDict md) \/
       exists md w, v = JDict md /\ md !! "s" = Some w /\
         forall ms, w <> JDict ms))) ->
  convert_json_to_lut str_of_value json_data = ValueError TypeError.
Proof.
  intros H. rewrite convert_json_to_lut_eq.
  assert (Hf : balance_factors json_data = Raised TypeError);
    [| now rewrite Hf].
  unfold balance_factors, color_balance, getitem_key.
  destruct H as [Hd | (m & v & -> & Hv & [Hnd | (md & w & -> & Hw & Hns)])].
  - destruct json_data; try reflexivity. now destruct (Hd m).
  - rewrite Hv. cbn [bind]. destruct v; try reflexivity. now destruct (Hnd m0).
  - rewrite Hv. cbn [bind]. rewrite Hw. cbn [bind].
    destruct w; try reflexivity. now destruct (Hns m0).
Qed.

Lemma not_an_object_raises_witness :
  convert_json_to_lut str_not_called (JList [JStr "name"; JStr "data"]) =
  ValueError TypeError.
Proof.
  apply (not_an_object_raises str_not_called (JList [JStr "name"; JStr "data"])).
  left. discriminate.
Defined.

(** X5. The name is looked up after the grid is generated: a document with
    no [name] fails with [KeyError] when its two factors can be read, and
    with the error of the factors when they cannot. *)
Theorem missing_name_raises (str_of_value : json -> string)
    (m : gmap string json) :
  m !! "name" = None ->
  convert_json_to_lut str_of_value (JDict m) =
  ValueError match balance_factors (JDict m) with
             | Raised e => e
             | Returned _ => KeyError
             end.
Proof.
  intros Hn. rewrite convert_json_to_lut_eq.
  destruct (balance_factors (JDict m)) as [[br bg]|e]; [| reflexivity].
  unfold getitem_key. now rewrite Hn.
Qed.

Lemma missing_name_raises_witness :
  convert_json_to_lut str_not_called
    (JDict {["data" := JDict {["s" := JDict {["colorBalance" := JList [JFloat 1]]}]}]}) =
  ValueError IndexError.
Proof.
  etransitivity.
  - apply (missing_name_raises str_not_called
             {["data" := JDict {["s" := JDict {["colorBalance" := JList [JFloat 1]]}]}]}).
    apply lookup_singleton_ne. discriminate.
  - vm_compute. reflexivity.
Defined.

(** * Further results: the grid *)

(** X6. The samples of an axis are exact and evenly spaced: sample 0 is 0,
    sample 32 is 1, two neighbours differ by exactly 1/32, and [32] times
    sample [i] is [i]: the division by [lut_size - 1] never rounds. *)
Theorem coord_evenly_spaced (i : nat) :
  i < 32 ->
  coord 0 = 0%float /\
  coord 32 = 1%float /\
  (coord (S i) - coord i)%float = 0.03125%float /\
  (coord i * 32)%float = float_of_nat i.
Proof.
  intros Hi.
  split; [vm_compute; reflexivity |]. split; [vm_compute; reflexivity |].
  do 32 (destruct i as [|i]; [split; vm_compute; reflexivity |]). lia.
Qed.

Lemma coord_evenly_spaced_witness :
  coord 0 = 0%float /\
  coord 32 = 1%float /\
  (coord 8 - coord 7)%float = 0.03125%float /\
  (coord 7 * 32)%float = float_of_nat 7.
Proof. apply (coord_evenly_spaced 7). lia. Defined.

Lemma coord_times_one (i : nat) : i < 33 -> (coord i * 1)%float = coord i.
Proof.
  intros Hi.
  do 33 (destruct i as [|i]; [vm_compute; reflexivity |]). lia.
Qed.

(** X7. With both factors equal to 1 the table is the identity: the entry
    at [(r, g, b)] is exactly [(r/32, g/32, b/32)]. *)
Theorem identity_balance_identity_table (json_data b0 b1 : json)
    (rest : list json) (r g b : nat) :
  color_balance json_data = Returned (JList (b0 :: b1 :: rest)) ->
  as_double b0 = Returned 1%float ->
  as_double b1 = Returned 1%float ->
  r < 33 -> g < 33 -> b < 33 ->
  exists lut,
    generate json_data = Returned lut /\
    lut_getitem lut_size lut r g b = Returned (coord r, coord g, coord b).
Proof.
  intros Hcb H0 H1 Hr Hg Hb. exists (grid 1 1). split.
  - rewrite generate_eq.
    now rewrite (balance_factors_numbers _ _ _ _ _ _ Hcb H0 H1).
  - rewrite (grid_getitem 1 1 r g b Hr Hg Hb). unfold cell.
    now rewrite !coord_times_one.
Qed.

Lemma identity_balance_identity_table_witness :
  exists lut,
    generate (make_input (JStr "Id") [JInt 1; JBool true]) = Returned lut /\
    lut_getitem lut_size lut 3 16 32 = Returned (coord 3, coord 16, coord 32).
Proof.
  apply (identity_balance_identity_table
           (make_input (JStr "Id") [JInt 1; JBool true])
           (JInt 1) (JBool true) [] 3 16 32);
    [apply make_input_balance | reflexivity | reflexivity | lia | lia | lia].
Defined.

(** X8. The factors count through their value as doubles only: two inputs
    with the same name whose first two factors convert to the same doubles
    have the same outcome. So [1], [1.0] and [true] are the same factor, and
    so are [0], [0.0] and [false]. *)
Theorem factors_used_as_doubles (str_of_value : json -> string)
    (d1 d2 a0 a1 c0 c1 : json) (rest1 rest2 : list json) :
  getitem_key d1 "name" = getitem_key d2 "name" ->
  color_balance d1 = Returned (JList (a0 :: a1 :: rest1)) ->
  color_balance d2 = Returned (JList (c0 :: c1 :: rest2)) ->
  as_double a0 = as_double c0 ->
  as_double a1 = as_double c1 ->
  convert_json_to_lut str_of_value d1 = convert_json_to_lut str_of_value d2 /\
  as_double (JInt 1) = as_double (JFloat 1) /\
  as_double (JBool true) = as_double (JFloat 1) /\
  as_double (JInt 0) = as_double (JFloat 0) /\
  as_double (JBool false) = as_double (JFloat 0).
Proof.
  intros Hn H1 H2 E0 E1. split; [| repeat split; vm_compute; reflexivity].
  rewrite !convert_json_to_lut_eq.
  rewrite (balance_factors_list _ _ _ _ H1), (balance_factors_list _ _ _ _ H2).
  now rewrite E0, E1, Hn.
Qed.

Lemma factors_used_as_doubles_witness :
  convert_json_to_lut str_not_called (make_input (JStr "Test") [JBool true; JInt 0]) =
  convert_json_to_lut str_not_called (make_input (JStr "Test") [JFloat 1; JFloat 0; JNull]) /\
  as_double (JInt 1) = as_double (JFloat 1) /\
  as_double (JBool true) = as_double (JFloat 1) /\
  as_double (JInt 0) = as_double (JFloat 0) /\
  as_double (JBool false) = as_double (JFloat 0).
Proof.
  apply (factors_used_as_doubles str_not_called
           (make_input (JStr "Test") [JBool true; JInt 0])
           (make_input (JStr "Test") [JFloat 1; JFloat 0; JNull])
           (JBool true) (JInt 0) (JFloat 1) (JFloat 0) [] [JNull]).
  - now rewrite !make_input_name.
  - apply make_input_balance.
  - apply make_input_balance.
  - reflexivity.
  - vm_compute. reflexivity.
Defined.

(** * Further results: the serializer *)

Lemma fmap_lookup_seq {A B : Type} (f : A -> B) (d : B) (l : list A) :
  (fun i => match l !! i with Some v => f v | None => d end) <$> seq 0 (length l)
  = f <$> l.
Proof.
  apply list_eq. intros j. rewrite !list_lookup_fmap.
  destruct (decide (j < length l)) as [Hj | Hj].
  - rewrite lookup_seq_lt by assumption. cbn.
    destruct (lookup_lt_is_Some_2 l j Hj) as [v Hv]. now rewrite Hv.
  - rewrite (lookup_ge_None_2 l) by lia.
    now rewrite (lookup_ge_None_2 (seq 0 (length l))) by (rewrite length_seq; lia).
Qed.

(** X9. The serializer alone, on any array of the shape (33, 33, 33, 3): it
    returns the buffer as it was, followed by one line per cell in storage
    order; it changes nothing of what was written before. *)
Theorem write_rows_appends (lut : list rgb) (output : string) :
  length lut = 33 * 33 * 33 ->
  write_rows lut output =
  Returned (output +:+ concat_text (data_line <$> lut)).
Proof.
  intros Hlen. unfold write_rows. rewrite for_range_cube. unfold for_range.
  rewrite (for_range_from_pure _
             (fun out i => out +:+ match lut !! i with
                                   | Some v => data_line v
                                   | None => ""
                                   end)).
  - rewrite (fold_write (fun i => match lut !! i with
                                  | Some v => data_line v
                                  | None => ""
                                  end)).
    rewrite cube_33, <- Hlen. now rewrite (fmap_lookup_seq data_line "" lut).
  - intros i s Hi. unfold write_cell, lut_getitem.
    rewrite cell_index_flat by lia. cbn [bind].
    destruct (lookup_lt_is_Some_2 lut i) as [v Hv];
      [rewrite Hlen, <- cube_33; lia |].
    now rewrite Hv.
Qed.

Lemma write_rows_appends_witness :
  write_rows (np_zeros lut_size) "header" =
  Returned ("header" +:+ concat_text (data_line <$> np_zeros lut_size)).
Proof.
  apply (write_rows_appends (np_zeros lut_size) "header").
  apply np_zeros_length.
Defined.

Lemma all_chars_concat_text (p : ascii -> bool) (l : list string) :
  Forall (fun s => all_chars p s = true) l ->
  all_chars p (concat_text l) = true.
Proof.
  induction 1 as [|s l Hs _ IH]; [reflexivity |].
  cbn [concat_text]. now rewrite all_chars_app, Hs, IH.
Qed.

Lemma is_number_data_char (c : ascii) :
  is_number_char c = true -> is_data_char c = true.
Proof. intros H. unfold is_data_char. now rewrite H. Qed.

Lemma data_line_chars (v : rgb) : all_chars is_data_char (data_line v) = true.
Proof.
  destruct v as [[r g] b]. unfold data_line.
  rewrite !all_chars_app.
  rewrite !(all_chars_impl _ _ _ is_number_data_char (format_6f_chars _)).
  reflexivity.
Qed.

(** X10. After the two header lines a returned document holds nothing but
    digits, minus signs, points, spaces, newlines and the letters of [nan]
    and [inf]: no exponent notation ([e], [E], [+]), no comma, no tab,
    whatever the size of the numbers. *)
Theorem data_section_alphabet (str_of_value : json -> string)
    (json_data name : json) (text : string) :
  convert_json_to_lut str_of_value json_data = Converted text name ->
  exists data,
    text = title_line str_of_value name +:+ size_line +:+ data /\
    all_chars is_data_char data = true /\
    avoids "e" data = true /\ avoids "E" data = true /\
    avoids "+" data = true /\ avoids "," data = true /\
    avoids "009" data = true.
Proof.
  intros Hconv.
  destruct (convert_inv _ _ _ _ Hconv) as (br & bg & _ & _ & ->).
  exists (concat_text (data_line <$> grid br bg)).
  assert (Hchars : all_chars is_data_char
                     (concat_text (data_line <$> grid br bg)) = true).
  { apply all_chars_concat_text, Forall_fmap, Forall_forall.
    intros v _. apply data_line_chars. }
  split; [now rewrite size_line_eq |].
  split; [exact Hchars |].
  repeat split; now apply (all_chars_avoids is_data_char).
Qed.

Lemma data_section_alphabet_witness :
  exists data,
    document "Test" 1 0.5 =
      title_line str_not_called (JStr "Test") +:+ size_line +:+ data /\
    all_chars is_data_char data = true /\
    avoids "e" data = true /\ avoids "E" data = true /\
    avoids "+" data = true /\ avoids "," data = true /\
    avoids "009" data = true.
Proof.
  apply (data_section_alphabet str_not_called test_input (JStr "Test")).
  exact (convert_make_input str_not_called (JStr "Test") (JFloat 1)
           (JFloat 0.5) [JFloat 0.5] 1 0.5 eq_refl eq_refl).
Defined.

(** * Further results: the first data line *)

Lemma zero_times_text (x : float) :
  format_6f (coord 0 * x) = zero_product_text x.
Proof.
  unfold format_6f, zero_product_text. rewrite mul_spec.
  assert (H0 : Prim2SF (coord 0) = S754_zero false) by (vm_compute; reflexivity).
  rewrite H0. destruct (Prim2SF x) as [s | s | | s m e]; reflexivity.
Qed.

Lemma grid_head (br bg : float) :
  grid br bg =
  cell br bg 0 0 0
  :: (cell_at br bg <$> seq 1 (lut_size * lut_size * lut_size - 1)).
Proof.
  unfold grid. pose proof lut_size_pos as Hpos.
  destruct (lut_size * lut_size * lut_size) as [|n]; [lia |].
  replace (S n - 1) with n by lia. reflexivity.
Qed.

(** X11. The first data line, the one of black, is made of three zeros that
    carry the signs of the factors: [0.000000] for a positive or zero
    factor, [-0.000000] for a negative one (0.0 times a negative number is
    the negative zero), and [nan] for a factor that is an infinity or a
    NaN. *)
Theorem first_data_line (str_of_value : json -> string) (json_data name : json)
    (text : string) :
  convert_json_to_lut str_of_value json_data = Converted text name ->
  exists br bg rest,
    balance_factors json_data = Returned (br, bg) /\
    text = title_line str_of_value name +:+ size_line
           +:+ (zero_product_text br +:+ " " +:+ zero_product_text bg +:+ " "
                +:+ zero_product_text bg +:+ LF)
           +:+ rest.
Proof.
  intros Hconv.
  destruct (convert_inv _ _ _ _ Hconv) as (br & bg & Hb & _ & ->).
  exists br, bg,
    (concat_text (data_line <$>
       (cell_at br bg <$> seq 1 (lut_size * lut_size * lut_size - 1)))).
  split; [exact Hb |].
  unfold document. rewrite grid_head. cbn [fmap list_fmap concat_text].
  unfold cell, data_line at 1. rewrite !zero_times_text, size_line_eq.
  reflexivity.
Qed.

Lemma first_data_line_witness :
  exists br bg rest,
    balance_factors (make_input (JStr "Test") [JFloat (-1.5); JInt 2]) =
      Returned (br, bg) /\
    document "Test" (-1.5) 2 =
      title_line str_not_called (JStr "Test") +:+ size_line
      +:+ (zero_product_text br +:+ " " +:+ zero_product_text bg +:+ " "
           +:+ zero_product_text bg +:+ LF)
      +:+ rest.
Proof.
  apply (first_data_line str_not_called
           (make_input (JStr "Test") [JFloat (-1.5); JInt 2]) (JStr "Test")).
  exact (convert_make_input str_not_called (JStr "Test") (JFloat (-1.5))
           (JInt 2) [] (-1.5) 2 eq_refl eq_refl).
Defined.

Example negative_factor_black_line :
  zero_product_text (-1.5) = "-0.000000" /\
  zero_product_text 2 = "0.000000" /\
  zero_product_text neg_infinity = "nan".
Proof. repeat split; vm_compute; reflexivity. Qed.

(** * Further results: the download name *)

Lemma length_append (a b : string) :
  String.length (a +:+ b) = String.length a + String.length b.
Proof.
  induction a as [|x a IH]; [reflexivity |].
  rewrite append_cons. cbn [String.length]. now rewrite IH.
Qed.

Lemma replace_char_avoids (old new : ascii) (s : string) :
  Ascii.eqb new old = false -> avoids old (replace_char old new s) = true.
Proof.
  intros Hne. induction s as [|c s IH]; [reflexivity |].
  cbn [replace_char]. rewrite avoids_cons, IH, andb_true_r.
  destruct (Ascii.eqb c old) eqn:E; [now rewrite Hne | now rewrite E].
Qed.

(** X12. The download name never holds a space, whatever the file name
    posted, and it is five characters longer than it. *)
Theorem download_name_no_space (filename : string) :
  avoids " " (download_name filename) = true /\
  String.length (download_name filename) = String.length filename + 5.
Proof.
  unfold download_name. split.
  - now rewrite avoids_app, replace_char_avoids.
  - now rewrite length_append, replace_char_length.
Qed.

Lemma replace_char_idempotent (old new : ascii) (s : string) :
  Ascii.eqb new old = false ->
  replace_char old new (replace_char old new s) = replace_char old new s.
Proof.
  intros Hne. induction s as [|c s IH]; [reflexivity |].
  cbn [replace_char]. rewrite IH. f_equal.
  destruct (Ascii.eqb c old) eqn:E; [now rewrite Hne | now rewrite E].
Qed.

(** X13. Spaces and underscores are not told apart in the download name: a
    file name and the same file name with its spaces already replaced by
    underscores get the same download name. *)
Theorem download_name_collapses_spaces (filename : string) :
  download_name (replace_char " " "_" filename) = download_name filename.
Proof. unfold download_name. now rewrite replace_char_idempotent. Qed.

Example download_name_collision :
  "my lut" <> "my_lut" /\ download_name "my lut" = download_name "my_lut".
Proof. split; [discriminate | reflexivity]. Qed.
